(** * ResNets for ENAS (models/resnet_enas.py): block constructors,
      weight sharing, latency model and network assembly.

    The Python module builds Gluon layers.  What is verified here is the
    construction-time bookkeeping: which layers are created, in which
    order, with which arguments, which weight tensors are reused from a
    parameter-sharing partner, and which exceptions the constructors
    raise.  Tensor contents and forward computation are not modelled. *)

From Stdlib Require Import ZArith QArith Lia.
From stdpp Require Import base gmap list strings.
Close Scope Q_scope.

Set Default Proof Using "Type".

(** ** Python exceptions and numbers *)

(** The exceptions the module can raise.  [ShapeMismatch] is the error a
    conv layer raises when it is handed a weight tensor of another shape
    (section 7 of the specification). *)
Inductive PyError : Type :=
  | AssertionError (msg : string)
  | ValueError (msg : string)
  | TypeError (msg : string)
  | AttributeError (attr : string)
  | IndexError
  | KeyError
  | ShapeMismatch.

(** A Python number: [3] is an [int], [3 * (0.25 + ...)] a [float].
    Floats are modelled by exact rationals; the constants 0.25, 0.75 and
    1/32 are dyadic, so for a bit-width below 2^49 every intermediate
    result of [latency_function] is exactly representable in binary64 and
    the float computation coincides with the rational one. *)
Inductive PyNum : Type :=
  | PyInt (z : Z)
  | PyFloat (q : Q).

Definition num_value (n : PyNum) : Q :=
  match n with
  | PyInt z => inject_Z z
  | PyFloat q => q
  end.

(** A rational that binary64 holds exactly: [m / 2^k] with a significand
    of at most 53 bits and an exponent no smaller than that of the
    subnormal numbers. *)
Definition binary64_exact (q : Q) : Prop :=
  exists m k : Z,
    (Z.abs m < 2 ^ 53)%Z /\ (0 <= k <= 1074)%Z
    /\ (q == inject_Z m / inject_Z (2 ^ k))%Q.

(** ** Construction monad: a store of tensors plus exceptions *)

(** The store is the number of parameter dictionaries allocated so far;
    a dictionary is identified by its allocation index, so two layers
    hold the same tensor exactly when they hold the same index. *)
Inductive Outcome (A : Type) : Type :=
  | Ok (a : A)
  | Raise (e : PyError).
Arguments Ok {A} a.
Arguments Raise {A} e.

Definition Py (A : Type) : Type := nat -> Outcome A * nat.

Definition ret {A} (a : A) : Py A := fun s => (Ok a, s).

Definition bind {A B} (m : Py A) (k : A -> Py B) : Py B :=
  fun s =>
    match m s with
    | (Ok a, s') => k a s'
    | (Raise e, s') => (Raise e, s')
    end.

Definition raise {A} (e : PyError) : Py A := fun s => (Raise e, s).

Definition fresh : Py nat := fun s => (Ok s, S s).

Notation "'let!' x ':=' c1 'in' c2" := (bind c1 (fun x => c2))
  (at level 10, x pattern, c1 at level 200, c2 at level 200, only parsing).

Definition py_assert (b : bool) (msg : string) : Py unit :=
  if b then ret tt else raise (AssertionError msg).

(** [for _ in range(n): acc.append(m)] *)
Fixpoint repeatM {A} (n : nat) (m : Py A) : Py (list A) :=
  match n with
  | O => ret []
  | S n' => let! a := m in let! rest := repeatM n' m in ret (a :: rest)
  end.

(** [l[i]] on a Python list: negative indices count from the end, an
    index out of range raises IndexError. *)
Definition py_getitem {A} (l : list A) (i : Z) : Py A :=
  let n := Z.of_nat (length l) in
  let j := if (i <? 0)%Z then (n + i)%Z else i in
  if ((0 <=? j)%Z && (j <? n)%Z)%bool then
    match l !! Z.to_nat j with
    | Some a => ret a
    | None => raise IndexError
    end
  else raise IndexError.

Definition is_Raise {A} (r : Outcome A * nat) : Prop :=
  exists e, r.1 = Raise e.

(** ** Tensors *)

(** The [params] of a conv layer: the dictionary holding its weight
    tensor, identified by [pd_id], with the tensor's shape
    [out_channels; in_channels; kernel; kernel]. *)
Record ParameterDict : Type := {
  pd_id : nat;
  pd_shape : list Z
}.

(** ** Calling a Python function: binding arguments to parameters *)

Inductive PyVal : Type :=
  | VInt (z : Z)
  | VNone
  | VParams (p : ParameterDict).

(** Positional arguments fill the parameters from the left; a keyword
    that names a parameter already filled, or no parameter at all, is a
    TypeError; so is a parameter left without value or default. *)
Fixpoint bind_positional (names : list string) (args : list PyVal)
  : option (list (string * PyVal) * list string) :=
  match args, names with
  | [], _ => Some ([], names)
  | _ :: _, [] => None
  | a :: args', n :: names' =>
      match bind_positional names' args' with
      | Some (bound, unbound) => Some ((n, a) :: bound, unbound)
      | None => None
      end
  end.

Fixpoint assoc (k : string) (l : list (string * PyVal)) : option PyVal :=
  match l with
  | [] => None
  | (k', v) :: l' => if String.eqb k k' then Some v else assoc k l'
  end.

Fixpoint bind_keywords (names : list string) (bound : list (string * PyVal))
    (kwargs : list (string * PyVal)) : PyError + list (string * PyVal) :=
  match kwargs with
  | [] => inr bound
  | (k, v) :: kwargs' =>
      if negb (existsb (String.eqb k) names) then
        inl (TypeError "got an unexpected keyword argument")
      else match assoc k bound with
           | Some _ => inl (TypeError "got multiple values for argument")
           | None => bind_keywords names (bound ++ [(k, v)]) kwargs'
           end
  end.

Fixpoint fill_defaults (names : list string) (defaults bound : list (string * PyVal))
  : PyError + list (string * PyVal) :=
  match names with
  | [] => inr []
  | n :: names' =>
      match (match assoc n bound with
             | Some v => Some v
             | None => assoc n defaults
             end) with
      | None => inl (TypeError "missing required positional argument")
      | Some v =>
          match fill_defaults names' defaults bound with
          | inr rest => inr ((n, v) :: rest)
          | inl e => inl e
          end
      end
  end.

Definition bind_arguments (names : list string) (defaults : list (string * PyVal))
    (args : list PyVal) (kwargs : list (string * PyVal)) : Py (list (string * PyVal)) :=
  match bind_positional names args with
  | None => raise (TypeError "too many positional arguments")
  | Some (bound, _) =>
      match bind_keywords names bound kwargs with
      | inl e => raise e
      | inr bound' =>
          match fill_defaults names defaults bound' with
          | inl e => raise e
          | inr env => ret env
          end
      end
  end.

Definition arg_int (env : list (string * PyVal)) (n : string) : Py Z :=
  match assoc n env with
  | Some (VInt z) => ret z
  | _ => raise (TypeError "an integer is required")
  end.

Definition arg_params (env : list (string * PyVal)) (n : string) : Py (option ParameterDict) :=
  match assoc n env with
  | Some VNone => ret None
  | Some (VParams p) => ret (Some p)
  | _ => raise (TypeError "a ParameterDict or None is required")
  end.

Definition val_of_params (p : option ParameterDict) : PyVal :=
  match p with
  | Some d => VParams d
  | None => VNone
  end.

Local Open Scope Z_scope.

(** ** Framework layers *)

(** The ambient binarization settings installed by
    [with set_binary_layer_config(bits=..., bits_a=..., grad_cancel=...)];
    every layer created inside the [with] block records them. *)
Record BinaryLayerConfig : Type := {
  cfg_bits : Z;
  cfg_bits_a : Z;
  cfg_grad_cancel : Q
}.

Record Conv : Type := {
  conv_channels : Z;
  conv_bits : option Z;          (* an explicit [bits=] argument *)
  conv_kernel_size : Z;
  conv_strides : Z;
  conv_padding : Z;
  conv_in_channels : Z;          (* 0: inferred from the graph *)
  conv_use_bias : option bool;   (* an explicit [use_bias=] argument *)
  conv_config : BinaryLayerConfig;
  conv_params : ParameterDict
}.

Inductive Layer : Type :=
  | LActivatedConv (c : Conv)
  | LQConv2D (c : Conv)
  | LBatchNorm (scale : bool) (epsilon : option Q) (params : nat)
  | LActivation (act : string)
  | LGlobalAvgPool2D
  | LFlatten
  | LDense (units in_units : Z) (params : nat)
  | LInitialLayers (kind : string) (channels : Z) (params : nat).

Definition shape_eqb (a b : list Z) : bool := bool_decide (a = b).

(** Modelled from the spec: the conv layers [QConv2D] and [activated_conv]
    of utils/binary_layers.py, which is not among the sources.  A layer
    built without [params] allocates its weight tensor; a layer built with
    [params] reuses that very tensor and fails with ShapeMismatch when the
    tensor has another shape than the layer's own (section 7: the
    weight-sharing partner has an incompatible tensor shape).  The shape
    is [out_channels; in_channels; kernel; kernel], each dimension
    compared as it is written, an [in_channels] of 0 (to be inferred from
    the graph) included.  Sections 3, 4.1 and 8 of the specification name
    the stride and the bit-width of the partner as well.  They are not
    dimensions of the tensor and are not compared here, because every
    block class of the module is decorated with
    [enas_unit(bits=Categorical(1, 32), share_parameters=True)] (lines 56,
    133, 213 and 298), which makes an instance of 1 bit and an instance of
    32 bits share their parameters.  The properties of the ShapeMismatch
    error below are therefore stated for differing channel counts only,
    and none of them concludes from an [in_channels] of 0 or from a
    differing stride or bit-width that a tensor is refused. *)
Definition conv_layer (cfg : BinaryLayerConfig) (channels : Z) (bits : option Z)
    (kernel_size strides padding in_channels : Z) (use_bias : option bool)
    (params : option ParameterDict) : Py Conv :=
  let shape := [channels; in_channels; kernel_size; kernel_size] in
  let mk p := {| conv_channels := channels; conv_bits := bits;
                 conv_kernel_size := kernel_size; conv_strides := strides;
                 conv_padding := padding; conv_in_channels := in_channels;
                 conv_use_bias := use_bias; conv_config := cfg;
                 conv_params := p |} in
  match params with
  | None => let! i := fresh in ret (mk {| pd_id := i; pd_shape := shape |})
  | Some p =>
      if shape_eqb (pd_shape p) shape then ret (mk p) else raise ShapeMismatch
  end.

Definition QConv2D (cfg : BinaryLayerConfig) (channels : Z) (bits : option Z)
    (kernel_size strides padding in_channels : Z) (use_bias : option bool)
    (params : option ParameterDict) : Py Layer :=
  let! c := conv_layer cfg channels bits kernel_size strides padding in_channels
              use_bias params in
  ret (LQConv2D c).

Definition activated_conv (cfg : BinaryLayerConfig) (channels kernel_size stride
    padding in_channels : Z) (params : option ParameterDict) : Py Layer :=
  let! c := conv_layer cfg channels None kernel_size stride padding in_channels
              None params in
  ret (LActivatedConv c).

(** [nn.BatchNorm(...)]: always owns fresh parameters and statistics;
    [epsilon = None] stands for the framework default. *)
Definition BatchNorm (scale : bool) (epsilon : option Q) : Py Layer :=
  let! i := fresh in ret (LBatchNorm scale epsilon i).

Definition Activation (act : string) : Py Layer := ret (LActivation act).

Definition Dense (units in_units : Z) : Py Layer :=
  let! i := fresh in ret (LDense units in_units i).

(** Modelled from the spec: [add_initial_layers] of
    binary_models/common_layers.py, which is not among the sources; it
    fills the stem, the initial feature-extraction layers applied before
    the residual stages, here one opaque layer owning fresh parameters. *)
Definition add_initial_layers (kind : string) (channels : Z) : Py Layer :=
  let! i := fresh in ret (LInitialLayers kind channels i).

(** [layer.qconv]: the convolution inside a conv layer. *)
Definition qconv (l : Layer) : Py Conv :=
  match l with
  | LActivatedConv c | LQConv2D c => ret c
  | _ => raise (AttributeError "qconv")
  end.

(** [layer.params] of a conv layer. *)
Definition layer_params (l : Layer) : Py ParameterDict :=
  match l with
  | LActivatedConv c | LQConv2D c => ret (conv_params c)
  | LBatchNorm _ _ i | LDense _ _ i | LInitialLayers _ _ i =>
      ret {| pd_id := i; pd_shape := [] |}
  | _ => raise (AttributeError "params")
  end.

(** The parameter dictionary of a block itself (it holds no tensor: all
    tensors live in the sub-layers): the partner's when there is one. *)
Definition block_params (partner_params : option nat) : Py nat :=
  match partner_params with
  | Some d => ret d
  | None => fresh
  end.

(** [grad_cancel if bits == 1 else 2**31] *)
Definition binary_config (bits : Z) (grad_cancel : Q) : BinaryLayerConfig :=
  {| cfg_bits := bits; cfg_bits_a := bits;
     cfg_grad_cancel := if bits =? 1 then grad_cancel else inject_Z (2 ^ 31) |}.

(** [def _conv3x3(bits, channels, stride, in_channels, params=None)],
    called with the positional arguments [args] and the keyword arguments
    [kwargs] of the call site. *)
Definition _conv3x3 (cfg : BinaryLayerConfig) (args : list PyVal)
    (kwargs : list (string * PyVal)) : Py Layer :=
  let! env := bind_arguments ["bits"; "channels"; "stride"; "in_channels"; "params"]
                [("params", VNone)] args kwargs in
  let! bits := arg_int env "bits" in
  let! channels := arg_int env "channels" in
  let! stride := arg_int env "stride" in
  let! in_channels := arg_int env "in_channels" in
  let! params := arg_params env "params" in
  QConv2D cfg channels (Some bits) 3 stride 1 in_channels None params.

(** ** Blocks *)

Module BasicBlockV1Enas.

Record t : Type := {
  params : nat;
  channels : Z;
  stride : Z;
  in_channels : Z;
  bits : Z;
  grad_cancel : Q;
  body : list Layer;
  downsample : option (list Layer)
}.

Definition _init (self : t) (parameter_sharing_partner : option t)
    (conv1_weights conv2_weights downsample_conv_weights : option ParameterDict)
    : Py t :=
  let cfg := binary_config (bits self) (grad_cancel self) in
  let! c1 := activated_conv cfg (channels self) 3 (stride self) 1
               (in_channels self) conv1_weights in
  let! n1 := BatchNorm true None in
  let! c2 := activated_conv cfg (channels self) 3 1 1 (channels self)
               conv2_weights in
  let! n2 := BatchNorm true None in
  let! ds :=
    match downsample self with
    | Some d =>
        let! dc := activated_conv cfg (channels self) 1 (stride self) 0
                     (in_channels self) downsample_conv_weights in
        let! dn := BatchNorm true None in
        ret (Some (d ++ [dc; dn]))
    | None => ret None
    end in
  ret {| params := params self; channels := channels self;
         stride := stride self; in_channels := in_channels self;
         bits := bits self; grad_cancel := grad_cancel self;
         body := body self ++ [c1; n1; c2; n2]; downsample := ds |}.

Definition __init__ (channels stride : Z) (downsample : bool) (in_channels : Z)
    (init : bool) (bits : Z) (grad_cancel : Q)
    (parameter_sharing_partner : option t) : Py t :=
  let! params := block_params (params <$> parameter_sharing_partner) in
  let! (conv1_weights, conv2_weights) :=
    match parameter_sharing_partner with
    | Some p =>
        let! l0 := py_getitem (body p) 0 in
        let! q0 := qconv l0 in
        let! l2 := py_getitem (body p) 2 in
        let! q2 := qconv l2 in
        ret (Some (conv_params q0), Some (conv_params q2))
    | None => ret (None, None)
    end in
  let! downsample_conv_weights :=
    if downsample then
      match parameter_sharing_partner with
      | Some p =>
          match BasicBlockV1Enas.downsample p with
          | Some d =>
              let! l0 := py_getitem d 0 in
              let! q0 := qconv l0 in
              ret (Some (conv_params q0))
          | None => raise (TypeError "'NoneType' object is not subscriptable")
          end
      | None => ret None
      end
    else ret None in
  let self := {| params := params; channels := channels; stride := stride;
                 in_channels := in_channels; bits := bits;
                 grad_cancel := grad_cancel; body := [];
                 downsample := if downsample then Some [] else None |} in
  if init then
    _init self parameter_sharing_partner conv1_weights conv2_weights
      downsample_conv_weights
  else ret self.

Definition latency_function {A} (self : t) (measured_forward_latency : A) : PyNum :=
  if bits self =? 32 then PyInt 3
  else PyFloat (3 * (0.25 + 0.75 * (inject_Z (bits self) / 32)))%Q.

End BasicBlockV1Enas.

Module BasicBlockV2Enas.

(** [downsample_conv_weights] is an attribute only of the instances
    built with [downsample=True]: the outer [None] is the attribute
    being absent, the inner one its value being [None]. *)
Record t : Type := {
  params : nat;
  channels : Z;
  stride : Z;
  bits : Z;
  in_channels : Z;
  grad_cancel : Q;
  bn : Layer;
  body : list Layer;
  conv1_weights : option ParameterDict;
  conv2_weights : option ParameterDict;
  downsample : option (list Layer);
  downsample_conv_weights : option (option ParameterDict)
}.

Definition _init (self : t) (parameter_sharing_partner : option t) : Py t :=
  let cfg := binary_config (bits self) (grad_cancel self) in
  let! c1 := activated_conv cfg (channels self) 3 (stride self) 1
               (in_channels self) (conv1_weights self) in
  let! n1 := BatchNorm true None in
  let! c2 := activated_conv cfg (channels self) 3 1 1 (channels self)
               (conv2_weights self) in
  let body' := body self ++ [c1; n1; c2] in
  let! ds :=
    match downsample self with
    | Some d =>
        let! w := match downsample_conv_weights self with
                  | Some w => ret w
                  | None => raise (AttributeError "downsample_conv_weights")
                  end in
        let! dc := activated_conv cfg (channels self) 1 (stride self) 0
                     (in_channels self) w in
        ret (Some (d ++ [dc]))
    | None => ret None
    end in
  let self' := {| params := params self; channels := channels self;
                  stride := stride self; bits := bits self;
                  in_channels := in_channels self;
                  grad_cancel := grad_cancel self; bn := bn self;
                  body := body'; conv1_weights := conv1_weights self;
                  conv2_weights := conv2_weights self; downsample := ds;
                  downsample_conv_weights := downsample_conv_weights self |} in
  match parameter_sharing_partner with
  | Some _ => ret self'
  | None =>
      let! l0 := py_getitem body' 0 in
      let! q0 := qconv l0 in
      let! l2 := py_getitem body' 2 in
      let! q2 := qconv l2 in
      let! dw :=
        match ds with
        | Some (l :: rest) =>
            let! q := qconv l in ret (Some (Some (conv_params q)))
        | _ => ret (downsample_conv_weights self)
        end in
      ret {| params := params self; channels := channels self;
             stride := stride self; bits := bits self;
             in_channels := in_channels self;
             grad_cancel := grad_cancel self; bn := bn self;
             body := body'; conv1_weights := Some (conv_params q0);
             conv2_weights := Some (conv_params q2); downsample := ds;
             downsample_conv_weights := dw |}
  end.

Definition __init__ (channels stride : Z) (downsample : bool) (in_channels : Z)
    (init : bool) (bits : Z) (grad_cancel : Q)
    (parameter_sharing_partner : option t) : Py t :=
  let! params := block_params (params <$> parameter_sharing_partner) in
  let! bn := BatchNorm true None in
  let conv1_weights :=
    match parameter_sharing_partner with
    | Some p => BasicBlockV2Enas.conv1_weights p
    | None => None
    end in
  let conv2_weights :=
    match parameter_sharing_partner with
    | Some p => BasicBlockV2Enas.conv2_weights p
    | None => None
    end in
  let! downsample_conv_weights :=
    if downsample then
      match parameter_sharing_partner with
      | Some p =>
          match BasicBlockV2Enas.downsample_conv_weights p with
          | Some w => ret (Some w)
          | None => raise (AttributeError "downsample_conv_weights")
          end
      | None => ret (Some None)
      end
    else ret None in
  let self := {| params := params; channels := channels; stride := stride;
                 bits := bits; in_channels := in_channels;
                 grad_cancel := grad_cancel; bn := bn; body := [];
                 conv1_weights := conv1_weights;
                 conv2_weights := conv2_weights;
                 downsample := if downsample then Some [] else None;
                 downsample_conv_weights := downsample_conv_weights |} in
  if init then _init self parameter_sharing_partner else ret self.

Definition latency_function {A} (self : t) (measured_forward_latency : A) : PyNum :=
  if bits self =? 32 then PyInt 3
  else PyFloat (3 * (0.25 + 0.75 * (inject_Z (bits self) / 32)))%Q.

End BasicBlockV2Enas.

Module BottleneckV1Enas.

Record t : Type := {
  params : nat;
  bits : Z;
  conv1_weights : option ParameterDict;
  conv2_weights : option ParameterDict;
  conv3_weights : option ParameterDict;
  downsample_conv_weights : option ParameterDict;
  body : list Layer;
  downsample : option (list Layer)
}.

Definition __init__ (channels stride : Z) (downsample : bool) (in_channels : Z)
    (bits : Z) (grad_cancel : Q) (parameter_sharing_partner : option t) : Py t :=
  let! params := block_params (params <$> parameter_sharing_partner) in
  let conv1_weights := parameter_sharing_partner ≫= conv1_weights in
  let conv2_weights := parameter_sharing_partner ≫= conv2_weights in
  let conv3_weights := parameter_sharing_partner ≫= conv3_weights in
  let downsample_conv_weights :=
    if downsample then parameter_sharing_partner ≫= downsample_conv_weights
    else None in
  let cfg := binary_config bits grad_cancel in
  let! b0 := QConv2D cfg (channels / 4) None 1 stride 0 0 None conv1_weights in
  let! b1 := BatchNorm true None in
  let! b2 := Activation "relu" in
  (* line 176: _conv3x3(channels // 4, 1, channels // 4, params=self.conv2_weights) *)
  let! b3 := _conv3x3 cfg [VInt (channels / 4); VInt 1; VInt (channels / 4)]
               [("params", val_of_params conv2_weights)] in
  let! b4 := BatchNorm true None in
  let! b5 := Activation "relu" in
  let! b6 := QConv2D cfg channels None 1 1 0 0 None conv3_weights in
  let! b7 := BatchNorm true None in
  let body := [b0; b1; b2; b3; b4; b5; b6; b7] in
  let! ds :=
    if downsample then
      let! d0 := QConv2D cfg channels None 1 stride 0 in_channels (Some false)
                   downsample_conv_weights in
      let! d1 := BatchNorm true None in
      ret (Some [d0; d1])
    else ret None in
  match parameter_sharing_partner with
  | Some _ =>
      ret {| params := params; bits := bits; conv1_weights := conv1_weights;
             conv2_weights := conv2_weights; conv3_weights := conv3_weights;
             downsample_conv_weights := downsample_conv_weights;
             body := body; downsample := ds |}
  | None =>
      let! l0 := py_getitem body 0 in
      let! w1 := layer_params l0 in
      let! l3 := py_getitem body 3 in
      let! w2 := layer_params l3 in
      let! l6 := py_getitem body 6 in
      let! w3 := layer_params l6 in
      let! dw :=
        if downsample then
          match ds with
          | Some d =>
              let! l := py_getitem d 0 in
              let! q := qconv l in
              ret (Some (conv_params q))
          | None => raise (TypeError "'NoneType' object is not subscriptable")
          end
        else ret downsample_conv_weights in
      ret {| params := params; bits := bits; conv1_weights := Some w1;
             conv2_weights := Some w2; conv3_weights := Some w3;
             downsample_conv_weights := dw; body := body; downsample := ds |}
  end.

Definition latency_function {A} (self : t) (measured_forward_latency : A) : PyNum :=
  if bits self =? 32 then PyInt 3
  else PyFloat (3 * (0.25 + 0.75 * (inject_Z (bits self) / 32)))%Q.

End BottleneckV1Enas.

Module BottleneckV2Enas.

Record t : Type := {
  params : nat;
  bits : Z;
  conv1_weights : option ParameterDict;
  conv2_weights : option ParameterDict;
  conv3_weights : option ParameterDict;
  downsample_conv_weights : option ParameterDict;
  bn1 : Layer;
  conv1 : Layer;
  bn2 : Layer;
  conv2 : Layer;
  bn3 : Layer;
  conv3 : Layer;
  downsample : option Layer
}.

(** Lines 343-347.  The argument [params=self.downsample_weights] reads
    an attribute that no statement of the class assigns (the weights
    are kept in [downsample_conv_weights]), so evaluating the arguments
    of the call raises AttributeError. *)
Definition make_downsample (cfg : BinaryLayerConfig) (channels stride : Z)
    (downsample : bool) (in_channels : Z) : Py (option Layer) :=
  if downsample then
    let! downsample_weights := raise (AttributeError "downsample_weights") in
    let! d := QConv2D cfg channels None 1 stride 0 in_channels (Some false)
                downsample_weights in
    ret (Some d)
  else ret None.

Definition __init__ (channels stride : Z) (downsample : bool) (in_channels : Z)
    (bits : Z) (grad_cancel : Q) (parameter_sharing_partner : option t) : Py t :=
  let! params := block_params (params <$> parameter_sharing_partner) in
  let conv1_weights := parameter_sharing_partner ≫= conv1_weights in
  let conv2_weights := parameter_sharing_partner ≫= conv2_weights in
  let conv3_weights := parameter_sharing_partner ≫= conv3_weights in
  let downsample_conv_weights :=
    if downsample then parameter_sharing_partner ≫= downsample_conv_weights
    else None in
  let cfg := binary_config bits grad_cancel in
  let! bn1 := BatchNorm true None in
  let! conv1 := QConv2D cfg (channels / 4) None 1 1 0 0 (Some false)
                  conv1_weights in
  let! bn2 := BatchNorm true None in
  (* line 340: _conv3x3(channels // 4, stride, channels // 4, bits=self.bits,
                        params=self.conv2_weights) *)
  let! conv2 := _conv3x3 cfg [VInt (channels / 4); VInt stride; VInt (channels / 4)]
                  [("bits", VInt bits); ("params", val_of_params conv2_weights)] in
  let! bn3 := BatchNorm true None in
  let! conv3 := QConv2D cfg channels None 1 1 0 0 (Some false) conv3_weights in
  let! ds := make_downsample cfg channels stride downsample in_channels in
  match parameter_sharing_partner with
  | Some _ =>
      ret {| params := params; bits := bits; conv1_weights := conv1_weights;
             conv2_weights := conv2_weights; conv3_weights := conv3_weights;
             downsample_conv_weights := downsample_conv_weights;
             bn1 := bn1; conv1 := conv1; bn2 := bn2; conv2 := conv2;
             bn3 := bn3; conv3 := conv3; downsample := ds |}
  | None =>
      let! w1 := layer_params conv1 in
      let! w2 := layer_params conv2 in
      let! w3 := layer_params conv3 in
      let! dw :=
        if downsample then
          match ds with
          | Some d => let! w := layer_params d in ret (Some w)
          | None => raise (AttributeError "params")
          end
        else ret downsample_conv_weights in
      ret {| params := params; bits := bits; conv1_weights := Some w1;
             conv2_weights := Some w2; conv3_weights := Some w3;
             downsample_conv_weights := dw;
             bn1 := bn1; conv1 := conv1; bn2 := bn2; conv2 := conv2;
             bn3 := bn3; conv3 := conv3; downsample := ds |}
  end.

Definition latency_function {A} (self : t) (measured_forward_latency : A) : PyNum :=
  if bits self =? 32 then PyInt 3
  else PyFloat (3 * (0.25 + 0.75 * (inject_Z (bits self) / 32)))%Q.

End BottleneckV2Enas.

(** ** ENAS units *)

(** Modelled from the spec: the [enas_unit] decorator of
    autogluon.contrib.enas, an external library.  Each block class is
    decorated with [bits=Categorical(1, 32), share_parameters=True]: a
    unit holds one instance of the class per candidate bit-width; the
    first one is the primary instance that owns the weight storage, the
    other one is constructed with the primary as its
    [parameter_sharing_partner]. *)
Definition enas_unit {B} (Cls : Z -> option B -> Py B) : Py (list B) :=
  let! primary := Cls 1 None in
  let! other := Cls 32 (Some primary) in
  ret [primary; other].

(** The arguments of a call [block(channels, stride, downsample,
    in_channels=..., prefix='', grad_cancel=...)]; [arg_grad_cancel = None]
    when the keyword is not passed. *)
Record BlockArgs : Type := {
  arg_channels : Z;
  arg_stride : Z;
  arg_downsample : bool;
  arg_in_channels : Z;
  arg_prefix : string;
  arg_grad_cancel : option Q
}.

Definition BlockClass (B : Type) : Type := BlockArgs -> Py B.

Inductive Unit : Type :=
  | UBasicBlockV1 (blocks : list BasicBlockV1Enas.t)
  | UBottleneckV1 (blocks : list BottleneckV1Enas.t)
  | UBasicBlockV2 (blocks : list BasicBlockV2Enas.t)
  | UBottleneckV2 (blocks : list BottleneckV2Enas.t).

(** The four decorated classes, as [_make_layer] calls them; [init] and
    [grad_cancel] take their defaults [True] and [1.0] when not passed. *)
Definition BasicBlockV1Enas_unit : BlockClass Unit := fun a =>
  let! bs := enas_unit (fun bits parameter_sharing_partner =>
               BasicBlockV1Enas.__init__ (arg_channels a) (arg_stride a)
                 (arg_downsample a) (arg_in_channels a) true bits
                 (default 1%Q (arg_grad_cancel a)) parameter_sharing_partner) in
  ret (UBasicBlockV1 bs).

Definition BottleneckV1Enas_unit : BlockClass Unit := fun a =>
  let! bs := enas_unit (fun bits parameter_sharing_partner =>
               BottleneckV1Enas.__init__ (arg_channels a) (arg_stride a)
                 (arg_downsample a) (arg_in_channels a) bits
                 (default 1%Q (arg_grad_cancel a)) parameter_sharing_partner) in
  ret (UBottleneckV1 bs).

Definition BasicBlockV2Enas_unit : BlockClass Unit := fun a =>
  let! bs := enas_unit (fun bits parameter_sharing_partner =>
               BasicBlockV2Enas.__init__ (arg_channels a) (arg_stride a)
                 (arg_downsample a) (arg_in_channels a) true bits
                 (default 1%Q (arg_grad_cancel a)) parameter_sharing_partner) in
  ret (UBasicBlockV2 bs).

Definition BottleneckV2Enas_unit : BlockClass Unit := fun a =>
  let! bs := enas_unit (fun bits parameter_sharing_partner =>
               BottleneckV2Enas.__init__ (arg_channels a) (arg_stride a)
                 (arg_downsample a) (arg_in_channels a) bits
                 (default 1%Q (arg_grad_cancel a)) parameter_sharing_partner) in
  ret (UBottleneckV2 bs).

(** ** Networks *)

Inductive Feature (B : Type) : Type :=
  | FLayer (l : Layer)
  | FBlock (b : B).
Arguments FLayer {B} l.
Arguments FBlock {B} b.

Record ResNet (B : Type) : Type := {
  features : list (Feature B);
  output : Layer;
  grad_cancel : Q;
  initial_layers : option Layer
}.
Arguments features {B} _.
Arguments output {B} _.
Arguments grad_cancel {B} _.
Arguments initial_layers {B} _.

Module ResNetEnas.
Section WithBlock.
Context {B : Type}.

Definition __init__ (channels : list Z) (classes : Z) (grad_cancel : Q)
    : Py (ResNet B) :=
  let! last := py_getitem channels (-1) in
  let! output := Dense classes last in
  ret {| features := []; output := output; grad_cancel := grad_cancel;
         initial_layers := None |}.

Definition _make_layer (self : ResNet B) (block : BlockClass B)
    (num_layers channels stride stage_index in_channels : Z) : Py (list B) :=
  let! first :=
    block {| arg_channels := channels; arg_stride := stride;
             arg_downsample := negb (channels =? in_channels);
             arg_in_channels := in_channels; arg_prefix := "";
             arg_grad_cancel := Some (grad_cancel self) |} in
  let! rest :=
    repeatM (Z.to_nat (num_layers - 1))
      (block {| arg_channels := channels; arg_stride := 1;
                arg_downsample := false; arg_in_channels := channels;
                arg_prefix := ""; arg_grad_cancel := None |}) in
  ret (first :: rest).

Definition enas_sequential (self : ResNet B) : list (Feature B) :=
  features self ++ [FLayer (output self)].

Definition append (self : ResNet B) (f : Feature B) : ResNet B :=
  {| features := features self ++ [f]; output := output self;
     grad_cancel := grad_cancel self; initial_layers := initial_layers self |}.

Definition extend (self : ResNet B) (bs : list B) : ResNet B :=
  {| features := features self ++ (FBlock <$> bs); output := output self;
     grad_cancel := grad_cancel self; initial_layers := initial_layers self |}.

Definition set_initial_layers (self : ResNet B) (l : Layer) : ResNet B :=
  {| features := features self; output := output self;
     grad_cancel := grad_cancel self; initial_layers := Some l |}.

End WithBlock.
End ResNetEnas.

Module ResNetV1Enas.
Section WithBlock.
Context {B : Type}.

(** [for i, num_layer in enumerate(layers)], from index [i] on. *)
Fixpoint stages (block : BlockClass B) (channels : list Z) (i : Z)
    (layers : list Z) (self : ResNet B) : Py (ResNet B) :=
  match layers with
  | [] => ret self
  | num_layer :: layers' =>
      let stride := if i =? 0 then 1 else 2 in
      let! c_out := py_getitem channels (i + 1) in
      let! c_in := py_getitem channels i in
      let! bs := ResNetEnas._make_layer self block num_layer c_out stride
                   (i + 1) c_in in
      stages block channels (i + 1) layers' (ResNetEnas.extend self bs)
  end.

Definition __init__ (block : BlockClass B) (layers channels : list Z)
    (classes : Z) (initial_layers : string) (grad_cancel : Q) : Py (ResNet B) :=
  let! self := ResNetEnas.__init__ channels classes grad_cancel in
  let! _ := py_assert (bool_decide (Z.of_nat (length layers)
                                    = Z.of_nat (length channels) - 1))
              "len(layers) == len(channels) - 1" in
  let! n0 := BatchNorm false (Some 2e-5%Q) in
  let self := ResNetEnas.append self (FLayer n0) in
  let! c0 := py_getitem channels 0 in
  let! stem := add_initial_layers initial_layers c0 in
  let self := ResNetEnas.set_initial_layers self stem in
  let self := ResNetEnas.append self (FLayer stem) in
  let! n1 := BatchNorm true None in
  let self := ResNetEnas.append self (FLayer n1) in
  let! self := stages block channels 0 layers self in
  let! act := Activation "relu" in
  let self := ResNetEnas.append self (FLayer act) in
  let self := ResNetEnas.append self (FLayer LGlobalAvgPool2D) in
  let self := ResNetEnas.append self (FLayer LFlatten) in
  ret self.

End WithBlock.
End ResNetV1Enas.

Module ResNetV2Enas.
Section WithBlock.
Context {B : Type}.

Fixpoint stages (block : BlockClass B) (channels : list Z) (i : Z)
    (layers : list Z) (in_channels : Z) (self : ResNet B) : Py (ResNet B) :=
  match layers with
  | [] => ret self
  | num_layer :: layers' =>
      let stride := if i =? 0 then 1 else 2 in
      let! c_out := py_getitem channels (i + 1) in
      let! bs := ResNetEnas._make_layer self block num_layer c_out stride
                   (i + 1) in_channels in
      let self := ResNetEnas.extend self bs in
      let! in_channels := py_getitem channels (i + 1) in
      stages block channels (i + 1) layers' in_channels self
  end.

Definition __init__ (block : BlockClass B) (layers channels : list Z)
    (classes : Z) (initial_layers : string) (grad_cancel : Q) : Py (ResNet B) :=
  let! self := ResNetEnas.__init__ channels classes grad_cancel in
  let! _ := py_assert (bool_decide (Z.of_nat (length layers)
                                    = Z.of_nat (length channels) - 1))
              "len(layers) == len(channels) - 1" in
  let! n0 := BatchNorm false (Some 2e-5%Q) in
  let self := ResNetEnas.append self (FLayer n0) in
  let! c0 := py_getitem channels 0 in
  let! stem := add_initial_layers initial_layers c0 in
  let self := ResNetEnas.set_initial_layers self stem in
  let self := ResNetEnas.append self (FLayer stem) in
  let! in_channels := py_getitem channels 0 in
  let! self := stages block channels 0 layers in_channels self in
  let! n1 := BatchNorm true None in
  let self := ResNetEnas.append self (FLayer n1) in
  let! act := Activation "relu" in
  let self := ResNetEnas.append self (FLayer act) in
  let self := ResNetEnas.append self (FLayer LGlobalAvgPool2D) in
  let self := ResNetEnas.append self (FLayer LFlatten) in
  ret self.

End WithBlock.
End ResNetV2Enas.

(** ** Specification table and constructor *)

Definition resnet_spec : gmap Z (string * list Z * list Z) :=
  list_to_map
    [ (18, ("basic_block", [2; 2; 2; 2], [64; 64; 128; 256; 512]));
      (34, ("basic_block", [3; 4; 6; 3], [64; 64; 128; 256; 512]));
      (50, ("bottle_neck", [3; 4; 6; 3], [64; 256; 512; 1024; 2048]));
      (101, ("bottle_neck", [3; 4; 23; 3], [64; 256; 512; 1024; 2048]));
      (152, ("bottle_neck", [3; 8; 36; 3], [64; 256; 512; 1024; 2048])) ].

Definition NetClass : Type :=
  BlockClass Unit -> list Z -> list Z -> Z -> string -> Q -> Py (ResNet Unit).

Definition resnet_net_versions : list NetClass :=
  [ResNetV1Enas.__init__; ResNetV2Enas.__init__].

Definition resnet_block_versions : list (gmap string (BlockClass Unit)) :=
  [ list_to_map [("basic_block"%string, BasicBlockV1Enas_unit);
                 ("bottle_neck"%string, BottleneckV1Enas_unit)];
    list_to_map [("basic_block"%string, BasicBlockV2Enas_unit);
                 ("bottle_neck"%string, BottleneckV2Enas_unit)] ].

(** The keyword arguments [get_resnet_enas] forwards to the network
    class, with the defaults of the class.  These are the keywords the
    classes take; any other keyword would end in [object.__init__] (line
    383) and raise a TypeError, and is not modelled. *)
Record NetKwargs : Type := {
  kw_classes : Z;
  kw_initial_layers : string;
  kw_grad_cancel : Q
}.

Definition default_kwargs : NetKwargs :=
  {| kw_classes := 1000; kw_initial_layers := "imagenet"; kw_grad_cancel := 1%Q |}.

Definition py_dict_getitem {K V} `{Countable K} (d : gmap K V) (k : K) : Py V :=
  match d !! k with
  | Some v => ret v
  | None => raise KeyError
  end.

Definition get_resnet_enas (version num_layers : Z) (pretrained : bool)
    (kwargs : NetKwargs) : Py (ResNet Unit) :=
  let! _ := py_assert (bool_decide (is_Some (resnet_spec !! num_layers)))
              "Invalid number of layers: %d. Options are %s" in
  let! (block_type, layers, channels) := py_dict_getitem resnet_spec num_layers in
  let! _ := py_assert ((1 <=? version) && (version <=? 2))
              "Invalid resnet version: %d. Options are 1 and 2." in
  let! resnet_class := py_getitem resnet_net_versions (version - 1) in
  let! block_dict := py_getitem resnet_block_versions (version - 1) in
  let! block_class := py_dict_getitem block_dict block_type in
  let! net := resnet_class block_class layers channels (kw_classes kwargs)
                (kw_initial_layers kwargs) (kw_grad_cancel kwargs) in
  if pretrained then raise (ValueError "No pretrained model exists, yet.")
  else ret net.

Definition resnet18_v1_enas := get_resnet_enas 1 18.
Definition resnet34_v1_enas := get_resnet_enas 1 34.
Definition resnet50_v1_enas := get_resnet_enas 1 50.
Definition resnet101_v1_enas := get_resnet_enas 1 101.
Definition resnet152_v1_enas := get_resnet_enas 1 152.
Definition resnet18_v2_enas := get_resnet_enas 2 18.
Definition resnet34_v2_enas := get_resnet_enas 2 34.
Definition resnet50_v2_enas := get_resnet_enas 2 50.
Definition resnet101_v2_enas := get_resnet_enas 2 101.
Definition resnet152_v2_enas := get_resnet_enas 2 152.

(** ** The four block variants as one family *)

Inductive Variant : Type :=
  | BasicV1
  | BottleneckV1
  | BasicV2
  | BottleneckV2.

Definition Block (v : Variant) : Type :=
  match v with
  | BasicV1 => BasicBlockV1Enas.t
  | BottleneckV1 => BottleneckV1Enas.t
  | BasicV2 => BasicBlockV2Enas.t
  | BottleneckV2 => BottleneckV2Enas.t
  end.

(** [Cls(channels, stride, downsample, in_channels=..., bits=...,
    grad_cancel=..., parameter_sharing_partner=...)] *)
Definition block_new (v : Variant) (channels stride : Z) (downsample : bool)
    (in_channels bits : Z) (grad_cancel : Q)
    : option (Block v) -> Py (Block v) :=
  match v with
  | BasicV1 =>
      BasicBlockV1Enas.__init__ channels stride downsample in_channels true bits
        grad_cancel
  | BottleneckV1 =>
      BottleneckV1Enas.__init__ channels stride downsample in_channels bits
        grad_cancel
  | BasicV2 =>
      BasicBlockV2Enas.__init__ channels stride downsample in_channels true bits
        grad_cancel
  | BottleneckV2 =>
      BottleneckV2Enas.__init__ channels stride downsample in_channels bits
        grad_cancel
  end.

Definition block_bits (v : Variant) : Block v -> Z :=
  match v with
  | BasicV1 => BasicBlockV1Enas.bits
  | BottleneckV1 => BottleneckV1Enas.bits
  | BasicV2 => BasicBlockV2Enas.bits
  | BottleneckV2 => BottleneckV2Enas.bits
  end.


Definition block_latency {A} (v : Variant) : Block v -> A -> PyNum :=
  match v with
  | BasicV1 => BasicBlockV1Enas.latency_function
  | BottleneckV1 => BottleneckV1Enas.latency_function
  | BasicV2 => BasicBlockV2Enas.latency_function
  | BottleneckV2 => BottleneckV2Enas.latency_function
  end.

(** *** What a block holds *)

Definition conv_of (l : Layer) : option Conv :=
  match l with
  | LActivatedConv c | LQConv2D c => Some c
  | _ => None
  end.

(** The weight tensors of the conv layers of a sequence, in order. *)
Definition conv_tensors (ls : list Layer) : list ParameterDict :=
  omap (fun l => conv_params <$> conv_of l) ls.

(** The parameter dictionaries of the batchnorm layers of a sequence. *)
Definition batchnorm_tensors (ls : list Layer) : list nat :=
  omap (fun l => match l with LBatchNorm _ _ i => Some i | _ => None end) ls.

Definition body_layers (v : Variant) : Block v -> list Layer :=
  match v with
  | BasicV1 => BasicBlockV1Enas.body
  | BottleneckV1 => BottleneckV1Enas.body
  | BasicV2 => fun b => BasicBlockV2Enas.bn b :: BasicBlockV2Enas.body b
  | BottleneckV2 => fun b =>
      [BottleneckV2Enas.bn1 b; BottleneckV2Enas.conv1 b; BottleneckV2Enas.bn2 b;
       BottleneckV2Enas.conv2 b; BottleneckV2Enas.bn3 b; BottleneckV2Enas.conv3 b]
  end.

Definition downsample_layers (v : Variant) : Block v -> list Layer :=
  match v with
  | BasicV1 => fun b => default [] (BasicBlockV1Enas.downsample b)
  | BottleneckV1 => fun b => default [] (BottleneckV1Enas.downsample b)
  | BasicV2 => fun b => default [] (BasicBlockV2Enas.downsample b)
  | BottleneckV2 => fun b => option_list (BottleneckV2Enas.downsample b)
  end.

(** Every tensor a block reaches through its layers. *)
Definition block_tensors (v : Variant) (b : Block v) : list nat :=
  (pd_id <$> conv_tensors (body_layers v b ++ downsample_layers v b))
  ++ batchnorm_tensors (body_layers v b ++ downsample_layers v b).

(** A block of bit-width 1, as [BasicBlockV1Enas(64, 1, in_channels=64,
    init=False, bits=1)] returns it. *)
Definition one_bit_block : BasicBlockV1Enas.t :=
  {| BasicBlockV1Enas.params := 0%nat; BasicBlockV1Enas.channels := 64;
     BasicBlockV1Enas.stride := 1; BasicBlockV1Enas.in_channels := 64;
     BasicBlockV1Enas.bits := 1; BasicBlockV1Enas.grad_cancel := 1%Q;
     BasicBlockV1Enas.body := []; BasicBlockV1Enas.downsample := None |}.

Definition supported_depths : list Z := [18; 34; 50; 101; 152].

(** A block class that records the arguments it is called with. *)
Definition recording_block : BlockClass BlockArgs := ret.

Definition blocks_of {B} (fs : list (Feature B)) : list B :=
  omap (fun f => match f with FBlock b => Some b | FLayer _ => None end) fs.

(** ** The assembler as a plan of block constructions *)

(** [[f(a) for a in l]], left to right. *)
Fixpoint mapM {A B} (f : A -> Py B) (l : list A) : Py (list B) :=
  match l with
  | [] => ret []
  | a :: l' => let! b := f a in let! bs := mapM f l' in ret (b :: bs)
  end.

Definition first_args (gc : Q) (channels stride in_channels : Z) : BlockArgs :=
  {| arg_channels := channels; arg_stride := stride;
     arg_downsample := negb (channels =? in_channels);
     arg_in_channels := in_channels; arg_prefix := "";
     arg_grad_cancel := Some gc |}.

Definition later_args (channels : Z) : BlockArgs :=
  {| arg_channels := channels; arg_stride := 1; arg_downsample := false;
     arg_in_channels := channels; arg_prefix := ""; arg_grad_cancel := None |}.

(** The calls one [_make_layer] makes. *)
Definition stage_plan (gc : Q) (num_layers channels stride in_channels : Z)
    : list BlockArgs :=
  first_args gc channels stride in_channels
  :: replicate (Z.to_nat (num_layers - 1)) (later_args channels).

Definition stage_stride (i : nat) : Z :=
  match i with
  | O => 1
  | S _ => 2
  end.

(** The calls of the stage loop, from stage [i] on. *)
Fixpoint plan (gc : Q) (channels : list Z) (i : nat) (layers : list Z)
    : list BlockArgs :=
  match layers with
  | [] => []
  | num_layer :: layers' =>
      stage_plan gc num_layer (default 0 (channels !! S i)) (stage_stride i)
        (default 0 (channels !! i))
      ++ plan gc channels (S i) layers'
  end.

Definition stage_size (num_layers : Z) : nat := S (Z.to_nat (num_layers - 1)).

(** Position, among the blocks of a network, of the first block of stage
    [i]. *)
Definition stage_start (layers : list Z) (i : nat) : nat :=
  sum_list (stage_size <$> take i layers).

(** ** Blocks reachable by construction *)

(** Blocks that the constructors produce with [init=True] (which
    [block_new] passes): a primary block, built without partner, or a
    block built with an earlier such block as its partner.  A block built
    with [init=False], or from such a block, is not among them.  The
    number is the state of the store after construction. *)
Inductive constructed (v : Variant) : Block v -> nat -> Prop :=
  | constructed_primary c st ds inc bits gc s0 p s1 :
      block_new v c st ds inc bits gc None s0 = (Ok p, s1) ->
      constructed v p s1
  | constructed_shared c st ds inc bits gc p0 s0 s p s1 :
      constructed v p0 s0 -> (s0 <= s)%nat ->
      block_new v c st ds inc bits gc (Some p0) s = (Ok p, s1) ->
      constructed v p s1.

(** The layout of a constructed block, with every tensor allocated
    before [s]: what the constructors keep invariant. *)
Definition wf_V1 (p : BasicBlockV1Enas.t) (s : nat) : Prop :=
  exists q0 n1 q2 n2,
    BasicBlockV1Enas.body p
    = [LActivatedConv q0; LBatchNorm true None n1;
       LActivatedConv q2; LBatchNorm true None n2]
    /\ (pd_id (conv_params q0) < s)%nat /\ (n1 < s)%nat
    /\ (pd_id (conv_params q2) < s)%nat /\ (n2 < s)%nat
    /\ match BasicBlockV1Enas.downsample p with
       | None => True
       | Some d =>
           exists qd nd,
             d = [LActivatedConv qd; LBatchNorm true None nd]
             /\ (pd_id (conv_params qd) < s)%nat /\ (nd < s)%nat
       end.

Definition wf_V2 (p : BasicBlockV2Enas.t) (s : nat) : Prop :=
  exists n0 q0 n1 q2,
    BasicBlockV2Enas.bn p = LBatchNorm true None n0
    /\ BasicBlockV2Enas.body p
       = [LActivatedConv q0; LBatchNorm true None n1; LActivatedConv q2]
    /\ BasicBlockV2Enas.conv1_weights p = Some (conv_params q0)
    /\ BasicBlockV2Enas.conv2_weights p = Some (conv_params q2)
    /\ (n0 < s)%nat /\ (pd_id (conv_params q0) < s)%nat /\ (n1 < s)%nat
    /\ (pd_id (conv_params q2) < s)%nat
    /\ match BasicBlockV2Enas.downsample p with
       | None => BasicBlockV2Enas.downsample_conv_weights p = None
       | Some d =>
           exists qd,
             d = [LActivatedConv qd]
             /\ BasicBlockV2Enas.downsample_conv_weights p
                = Some (Some (conv_params qd))
             /\ (pd_id (conv_params qd) < s)%nat
       end.

(** No bottleneck block is ever constructed: both constructors raise. *)
Definition wf (v : Variant) : Block v -> nat -> Prop :=
  match v with
  | BasicV1 => wf_V1
  | BasicV2 => wf_V2
  | BottleneckV1 | BottleneckV2 => fun _ _ => False
  end.

(** ** Vocabulary of the further properties *)

(** All layers of a block: its body, then its downsample path. *)
Definition all_layers (v : Variant) (b : Block v) : list Layer :=
  body_layers v b ++ downsample_layers v b.

(** The settings a conv layer has when it was made for a block of
    bit-width [bits], threshold [gc] and [c] channels. *)
Definition own_settings (bits : Z) (gc : Q) (c : Z) (q : Conv) : Prop :=
  cfg_bits (conv_config q) = bits /\ cfg_bits_a (conv_config q) = bits
  /\ cfg_grad_cancel (conv_config q) = (if bits =? 1 then gc else inject_Z (2 ^ 31))
  /\ conv_channels q = c.

(** ** Weight statistics of a binarized network (bmxnet_examples/evaluation.py) *)

Module Evaluation.

(** The exceptions of the module: of a division, and of [math.log] and
    of the indexing of [size_name] in [convert_size]. *)
Inductive Error : Type :=
  | ZeroDivisionError
  | ValueError
  | IndexError.

(** The lines [prepare_net] prints when [opt.verbose] is set, each with
    the values it formats. *)
Inductive Line : Type :=
  | FullPrecisionWeights (fp_weights : Z)
  | BinaryWeights (binary_weights : Z) (percent : Q)
  | CompressedSize (size : string) (percent : Q)
  | BinaryParams (names : list string)
  | FullPrecisionParams (names : list string).

(** [needle in hay] on strings. *)
Fixpoint contains (needle hay : string) : bool :=
  (String.prefix needle hay
   || match hay with
      | EmptyString => false
      | String _ rest => contains needle rest
      end)%bool.

(** The counters and name lists of [prepare_net]. *)
Record Locals : Type := {
  fp_weights : Z;
  binary_weights : Z;
  binary_params : list string;
  full_precision_params : list string
}.

(** [a / b] on integers, with [from __future__ import division]. *)
Definition py_div (a b : Z) : Error + Q :=
  if b =? 0 then inl ZeroDivisionError else inr (inject_Z a / inject_Z b)%Q.

Section WithFramework.
(** The framework's tensors: their shape, the deterministic sign that
    binarizes one, and [convert_size], whose logarithm is computed in
    floating point and which returns a string or raises. *)
Context {T : Type} (shape : T -> list Z) (det_sign : T -> T)
  (convert_size : Q -> Error + string).

(** [reduce(mul, param_data.shape, 1)] *)
Definition num_params (data : T) : Z := fold_left Z.mul (shape data) 1.

(** One iteration of the loop over [all_params.keys()]: the parameters
    already visited, with their data as [set_data] left it, and the
    locals. *)
Definition visit (acc : list (string * T) * Locals) (entry : string * T)
    : list (string * T) * Locals :=
  let (visited, l) := acc in
  let (param_name, param_data) := entry in
  let n := num_params param_data in
  if contains "qconv" param_name then
    (visited ++ [(param_name, det_sign param_data)],
     {| fp_weights := fp_weights l;
        binary_weights := binary_weights l + n;
        binary_params := binary_params l ++ [param_name];
        full_precision_params := full_precision_params l |})
  else
    (visited ++ [(param_name, param_data)],
     {| fp_weights := fp_weights l + n;
        binary_weights := binary_weights l;
        binary_params := binary_params l;
        full_precision_params := full_precision_params l ++ [param_name] |}).

(** [prepare_net(opt, net, gluon)] on the parameters of [net], in the
    order of the dictionary: the parameters afterwards, the lines
    printed, and the exception raised, if any. *)
Definition prepare_net (verbose : bool) (all_params : list (string * T))
    : list (string * T) * list Line * option Error :=
  let (params, l) :=
    fold_left visit all_params
      ([], {| fp_weights := 0; binary_weights := 0; binary_params := [];
              full_precision_params := [] |}) in
  let bits_required := binary_weights l + fp_weights l * 32 in
  let bytes_required := (inject_Z bits_required / 8)%Q in
  if verbose then
    let line1 := FullPrecisionWeights (fp_weights l) in
    match py_div (100 * binary_weights l) (fp_weights l + binary_weights l) with
    | inl e => (params, [line1], Some e)
    | inr percent =>
        let line2 := BinaryWeights (binary_weights l) percent in
        match convert_size bytes_required with
        | inl e => (params, [line1; line2], Some e)
        | inr size =>
            match py_div (100 * binary_weights l) bits_required with
            | inl e => (params, [line1; line2], Some e)
            | inr percent_bits =>
                (params,
                 [line1; line2; CompressedSize size percent_bits;
                  BinaryParams (binary_params l);
                  FullPrecisionParams (full_precision_params l)],
                 None)
            end
        end
    end
  else (params, [], None).

(** The parameters named as [keep] says, and their number of weights. *)
Definition names_where (keep : string -> bool) (all_params : list (string * T))
    : list string :=
  filter (fun n => Is_true (keep n)) (all_params.*1).

Definition weights_where (keep : string -> bool) (all_params : list (string * T))
    : Z :=
  foldr (fun entry acc =>
           if keep entry.1 then num_params entry.2 + acc else acc)
    0 all_params.

(** What the loop leaves in a parameter. *)
Definition binarized (entry : string * T) : string * T :=
  (entry.1, if contains "qconv" entry.1 then det_sign entry.2 else entry.2).

End WithFramework.

Definition is_qconv (param_name : string) : bool := contains "qconv" param_name.

End Evaluation.

(** * Properties *)

(** ** Latency model *)

Lemma latency_value {A} (v : Variant) (b : Block v) (m : A) :
  block_latency v b m =
    if block_bits v b =? 32 then PyInt 3
    else PyFloat (3 * (0.25 + 0.75 * (inject_Z (block_bits v b) / 32)))%Q.
Proof. destruct v; reflexivity. Qed.

(** C4, as amended.  For every block variant and every measured latency,
    [latency_function] is 3 when the bit-width is 32 and
    0.8203125 = 3 * (0.25 + 0.75 * (1/32)) when the bit-width is 1. *)
Theorem latency_at_32_and_1 {A} (v : Variant) (b : Block v) (m : A) :
  block_bits v b = 32 \/ block_bits v b = 1 ->
  (num_value (block_latency v b m) ==
     if block_bits v b =? 32 then 3 else 0.8203125)%Q.
Proof.
  intros H. rewrite latency_value.
  destruct H as [-> | ->]; vm_compute; reflexivity.
Qed.

Lemma one_bit_block_constructed :
  BasicBlockV1Enas.__init__ 64 1 false 64 false 1 1%Q None 0%nat
  = (Ok one_bit_block, 1%nat).
Proof. reflexivity. Qed.

Lemma latency_at_32_and_1_witness :
  (num_value (block_latency BasicV1 one_bit_block tt) == 0.8203125)%Q.
Proof.
  apply (latency_at_32_and_1 BasicV1 one_bit_block tt). right. reflexivity.
Defined.

(** C4, counterexample.  At bit-width 1 the latency is not 2.30625. *)
Lemma latency_at_1_is_not_2_30625 :
  ~ (num_value (BasicBlockV1Enas.latency_function one_bit_block tt) == 2.30625)%Q.
Proof. vm_compute. discriminate. Qed.

(** C5.  For every block variant, [latency_function] does not depend on
    the measured latency passed to it, and its value is 3 at bit-width 32
    and 3 * (0.25 + 0.75 * bit_width / 32) at any other bit-width. *)
Theorem latency_depends_on_bits_only {A A'} (v : Variant) (b : Block v)
    (m : A) (m' : A') :
  block_latency v b m = block_latency v b m'
  /\ (num_value (block_latency v b m) ==
        if block_bits v b =? 32 then 3
        else 3 * (0.25 + 0.75 * inject_Z (block_bits v b) / 32))%Q.
Proof.
  rewrite !latency_value. split; [reflexivity|].
  destruct (block_bits v b =? 32); simpl; [reflexivity|].
  field.
Qed.

(** ** Stepping through the construction monad *)

Lemma bind_Ok {A B} (m : Py A) (k : A -> Py B) s a s' :
  m s = (Ok a, s') -> bind m k s = k a s'.
Proof. unfold bind. intros ->. reflexivity. Qed.

Lemma bind_Raise {A B} (m : Py A) (k : A -> Py B) s e s' :
  m s = (Raise e, s') -> bind m k s = (Raise e, s').
Proof. unfold bind. intros ->. reflexivity. Qed.

Lemma bind_is_Raise {A B} (m : Py A) (k : A -> Py B) s :
  is_Raise (m s) -> is_Raise (bind m k s).
Proof.
  intros [e He]. unfold bind. destruct (m s) as [[a|e'] s']; simpl in *.
  - discriminate.
  - exists e'. reflexivity.
Qed.

Lemma bind_inv_Ok {A B} (m : Py A) (k : A -> Py B) s b s' :
  bind m k s = (Ok b, s') ->
  exists a s1, m s = (Ok a, s1) /\ k a s1 = (Ok b, s').
Proof.
  unfold bind. destruct (m s) as [[a|e] s1]; intros H.
  - eauto.
  - discriminate.
Qed.

Lemma is_Raise_Raise {A} (e : PyError) (s : nat) : is_Raise (@Raise A e, s).
Proof. exists e. reflexivity. Qed.

Lemma not_Ok_of_is_Raise {A} (r : Outcome A * nat) a s :
  is_Raise r -> r <> (Ok a, s).
Proof. intros [e He] ->. discriminate. Qed.

(** A conv layer either is built or fails with ShapeMismatch, and it
    allocates at most one tensor. *)
Lemma QConv2D_cases cfg channels bits k st pad in_c ub params s :
  (exists c s', QConv2D cfg channels bits k st pad in_c ub params s
                = (Ok (LQConv2D c), s'))
  \/ QConv2D cfg channels bits k st pad in_c ub params s = (Raise ShapeMismatch, s).
Proof.
  unfold QConv2D, conv_layer. destruct params as [p|].
  - destruct (shape_eqb _ _); [left | right]; eauto.
  - left. eauto.
Qed.

(** ** The two bottleneck constructors raise on every input *)

(** Line 176 passes three positional arguments and [params] to
    [_conv3x3(bits, channels, stride, in_channels, params=None)]:
    [in_channels] receives no value. *)
Lemma _conv3x3_call_V1 cfg a b c params s :
  _conv3x3 cfg [VInt a; VInt b; VInt c] [("params"%string, params)] s
  = (Raise (TypeError "missing required positional argument"), s).
Proof. reflexivity. Qed.

(** Line 340 passes [bits] by keyword after three positional arguments,
    the first of which is already bound to [bits]. *)
Lemma _conv3x3_call_V2 cfg a b c bits params s :
  _conv3x3 cfg [VInt a; VInt b; VInt c]
    [("bits"%string, VInt bits); ("params"%string, params)] s
  = (Raise (TypeError "got multiple values for argument"), s).
Proof. reflexivity. Qed.

Lemma BottleneckV1Enas_raises channels stride downsample in_channels bits gc
    partner s :
  is_Raise (BottleneckV1Enas.__init__ channels stride downsample in_channels
              bits gc partner s).
Proof.
  unfold BottleneckV1Enas.__init__.
  generalize (partner ≫= BottleneckV1Enas.conv1_weights) as w1.
  generalize (partner ≫= BottleneckV1Enas.conv2_weights) as w2.
  intros w2 w1.
  destruct (block_params (BottleneckV1Enas.params <$> partner) s)
    as [[d|e] s1] eqn:Hd.
  2:{ apply bind_is_Raise. rewrite Hd. apply is_Raise_Raise. }
  rewrite (bind_Ok _ _ _ _ _ Hd).
  destruct (QConv2D_cases (binary_config bits gc) (channels / 4) None 1 stride
              0 0 None w1 s1) as [(c & s2 & Hc) | Hc].
  2:{ apply bind_is_Raise. rewrite Hc. apply is_Raise_Raise. }
  rewrite (bind_Ok _ _ _ _ _ Hc).
  eexists. reflexivity.
Qed.

Lemma BottleneckV2Enas_raises channels stride downsample in_channels bits gc
    partner s :
  is_Raise (BottleneckV2Enas.__init__ channels stride downsample in_channels
              bits gc partner s).
Proof.
  unfold BottleneckV2Enas.__init__.
  generalize (partner ≫= BottleneckV2Enas.conv1_weights) as w1.
  generalize (partner ≫= BottleneckV2Enas.conv2_weights) as w2.
  intros w2 w1.
  destruct (block_params (BottleneckV2Enas.params <$> partner) s)
    as [[d|e] s1] eqn:Hd.
  2:{ apply bind_is_Raise. rewrite Hd. apply is_Raise_Raise. }
  rewrite (bind_Ok _ _ _ _ _ Hd).
  rewrite (bind_Ok _ _ _ _ _ (eq_refl : BatchNorm true None s1 = (_, _))).
  destruct (QConv2D_cases (binary_config bits gc) (channels / 4) None 1 1
              0 0 (Some false) w1 (S s1)) as [(c & s2 & Hc) | Hc].
  2:{ apply bind_is_Raise. rewrite Hc. apply is_Raise_Raise. }
  rewrite (bind_Ok _ _ _ _ _ Hc).
  eexists. reflexivity.
Qed.

(** ** The constructor [get_resnet_enas] *)

Lemma resnet_spec_unsupported (num_layers : Z) :
  num_layers ∉ supported_depths -> resnet_spec !! num_layers = None.
Proof. intros H. apply not_elem_of_list_to_map_1. exact H. Qed.

Lemma get_resnet_enas_bottleneck_V1 (pretrained : bool) (kwargs : NetKwargs) (s : nat) :
  Forall (fun d => get_resnet_enas 1 d pretrained kwargs s
                   = (Raise (TypeError "missing required positional argument"),
                      (7 + s)%nat))
    [50; 101; 152].
Proof. repeat constructor. Qed.

Lemma get_resnet_enas_bottleneck_V2 (pretrained : bool) (kwargs : NetKwargs) (s : nat) :
  Forall (fun d => get_resnet_enas 2 d pretrained kwargs s
                   = (Raise (TypeError "got multiple values for argument"),
                      (7 + s)%nat))
    [50; 101; 152].
Proof. repeat constructor. Qed.

Lemma get_resnet_enas_basic_pretrained (kwargs : NetKwargs) (s : nat) :
  Forall (fun '(v, d) =>
            exists s', get_resnet_enas v d true kwargs s
                       = (Raise (ValueError "No pretrained model exists, yet."), s'))
    [(1, 18); (1, 34); (2, 18); (2, 34)].
Proof. repeat constructor; eexists; vm_compute; reflexivity. Qed.

(** C9.  [get_resnet_enas version num_layers] fails on an assertion,
    before anything is allocated, whenever [num_layers] is not one of 18,
    34, 50, 101, 152 or [version] is not 1 or 2. *)
Theorem get_resnet_enas_invalid (version num_layers : Z) (pretrained : bool)
    (kwargs : NetKwargs) (s : nat) :
  num_layers ∉ supported_depths \/ ~ (1 <= version <= 2) ->
  exists msg, get_resnet_enas version num_layers pretrained kwargs s
              = (Raise (AssertionError msg), s).
Proof.
  intros H. unfold get_resnet_enas.
  destruct (resnet_spec !! num_layers) as [[[bt layers] channels]|] eqn:Hspec.
  - destruct H as [H | H].
    + rewrite (resnet_spec_unsupported _ H) in Hspec. discriminate.
    + assert (Hv : (1 <=? version) && (version <=? 2) = false).
      { apply andb_false_iff.
        destruct (Z.leb_spec 1 version), (Z.leb_spec version 2); auto; lia. }
      erewrite bind_Ok by (rewrite bool_decide_eq_true_2; [reflexivity | eauto]).
      cbv beta.
      erewrite bind_Ok by (unfold py_dict_getitem; rewrite Hspec; reflexivity).
      cbv beta iota.
      erewrite bind_Raise by (rewrite Hv; reflexivity).
      eauto.
  - erewrite bind_Raise.
    2:{ rewrite bool_decide_eq_false_2; [reflexivity|].
        intros [x Hx]. discriminate. }
    eauto.
Qed.

Lemma get_resnet_enas_invalid_witness :
  exists msg, get_resnet_enas 3 18 false default_kwargs 0%nat
              = (Raise (AssertionError msg), 0%nat).
Proof.
  apply (get_resnet_enas_invalid 3 18 false default_kwargs 0%nat).
  right. lia.
Defined.

(** The [downsample] flag plays no part in what the constructor of
    [BottleneckV2Enas] does: it raises before it reaches the branch of
    lines 343-347. *)
Lemma BottleneckV2Enas_downsample_unused channels stride downsample in_channels
    bits gc partner s :
  BottleneckV2Enas.__init__ channels stride downsample in_channels bits gc partner s
  = BottleneckV2Enas.__init__ channels stride false in_channels bits gc partner s.
Proof.
  unfold BottleneckV2Enas.__init__, bind.
  destruct (block_params (BottleneckV2Enas.params <$> partner) s) as [[d|e] s1];
    [|reflexivity].
  simpl.
  destruct (QConv2D _ _ _ _ _ _ _ _ _ _) as [[q|e] s2]; reflexivity.
Qed.

Lemma BottleneckV2Enas_exception channels stride downsample in_channels bits gc
    partner s :
  exists e s',
    BottleneckV2Enas.__init__ channels stride downsample in_channels bits gc
      partner s = (Raise e, s')
    /\ (e = TypeError "got multiple values for argument" \/ e = ShapeMismatch).
Proof.
  unfold BottleneckV2Enas.__init__.
  destruct partner as [p|]; simpl.
  - rewrite (bind_Ok _ _ _ _ _ (eq_refl : ret _ s = (Ok _, s))).
    rewrite (bind_Ok _ _ _ _ _ (eq_refl : BatchNorm true None s = (_, _))).
    destruct (QConv2D_cases (binary_config bits gc) (channels / 4) None 1 1 0 0
                (Some false) (BottleneckV2Enas.conv1_weights p) (S s))
      as [(q & s2 & Hq) | Hq].
    + rewrite (bind_Ok _ _ _ _ _ Hq).
      do 2 eexists. split; [reflexivity | left; reflexivity].
    + rewrite (bind_Raise _ _ _ _ _ Hq).
      do 2 eexists. split; [reflexivity | right; reflexivity].
  - do 2 eexists. split; [reflexivity | left; reflexivity].
Qed.

(** C3, as amended.  [BottleneckV2Enas] raises for every argument list,
    with [downsample=True] exactly as with [downsample=False]: the
    exception is the TypeError of the [_conv3x3] call of line 340 or,
    when a partner is given, the ShapeMismatch of the conv layer before
    it; without partner it is that TypeError, after four allocations.
    The read of [downsample_weights] at line 345 is never reached.
    [get_resnet_enas 2 d] raises the same TypeError during construction
    for d = 50, 101, 152, whose first stage asks for a downsampling block
    (256 output channels against 64 input channels). *)
Theorem BottleneckV2Enas_downsample_raises :
  (forall channels stride in_channels bits gc partner s,
     BottleneckV2Enas.__init__ channels stride true in_channels bits gc partner s
     = BottleneckV2Enas.__init__ channels stride false in_channels bits gc
         partner s
     /\ exists e s',
          BottleneckV2Enas.__init__ channels stride true in_channels bits gc
            partner s = (Raise e, s')
          /\ (e = TypeError "got multiple values for argument"
              \/ e = ShapeMismatch))
  /\ (forall channels stride in_channels bits gc s,
        BottleneckV2Enas.__init__ channels stride true in_channels bits gc None s
        = (Raise (TypeError "got multiple values for argument"), (4 + s)%nat))
  /\ Forall (fun d => forall pretrained kwargs s,
                      get_resnet_enas 2 d pretrained kwargs s
                      = (Raise (TypeError "got multiple values for argument"),
                         (7 + s)%nat))
       [50; 101; 152]
  /\ Forall (fun d =>
               exists layers channels net s' first,
                 resnet_spec !! d = Some ("bottle_neck"%string, layers, channels)
                 /\ ResNetV2Enas.__init__ recording_block layers channels 1000
                      "imagenet" 1%Q 0%nat = (Ok net, s')
                 /\ blocks_of (features net) !! 0%nat = Some first
                 /\ arg_channels first = 256 /\ arg_in_channels first = 64
                 /\ arg_downsample first = true)
       [50; 101; 152].
Proof.
  split; [|split; [|split]].
  - intros. split.
    + apply BottleneckV2Enas_downsample_unused.
    + apply BottleneckV2Enas_exception.
  - reflexivity.
  - repeat constructor.
  - repeat constructor; do 5 eexists; vm_compute; repeat split; reflexivity.
Qed.

(** C3, counterexample.  With [downsample=True] the constructor does not
    fail on the read of [downsample_weights]: it raises the TypeError of
    line 340, and it raises the same with [downsample=False]. *)
Lemma BottleneckV2Enas_fails_before_downsample :
  BottleneckV2Enas.__init__ 256 1 true 64 1 1%Q None 0%nat
  = (Raise (TypeError "got multiple values for argument"), 4%nat)
  /\ BottleneckV2Enas.__init__ 256 1 true 64 1 1%Q None 0%nat
     <> (Raise (AttributeError "downsample_weights"), 4%nat)
  /\ BottleneckV2Enas.__init__ 256 1 false 64 1 1%Q None 0%nat
     = (Raise (TypeError "got multiple values for argument"), 4%nat).
Proof. repeat split. discriminate. Qed.

(** C7, at the failing input.  [get_resnet_enas 1 50] raises a TypeError
    while it constructs the first bottleneck block, after seven
    allocations (the classification head, the input batchnorm, the stem,
    the batchnorm after the stem, the block's own dictionary and its
    first conv and batchnorm); the assembler itself,
    run with a block class that only records its arguments, asks for
    3+4+6+3 = 16 blocks with the strides, downsample flags and input
    channels of the four stages. *)
Theorem resnet50_v1_construction :
  (forall pretrained kwargs s,
     get_resnet_enas 1 50 pretrained kwargs s
     = (Raise (TypeError "missing required positional argument"), (7 + s)%nat))
  /\ exists net s',
       ResNetV1Enas.__init__ recording_block [3; 4; 6; 3]
         [64; 256; 512; 1024; 2048] 1000 "imagenet" 1%Q 0%nat = (Ok net, s')
       /\ length (blocks_of (features net)) = 16%nat
       /\ arg_stride <$> blocks_of (features net)
          = [1; 1; 1;  2; 1; 1; 1;  2; 1; 1; 1; 1; 1;  2; 1; 1]
       /\ arg_downsample <$> blocks_of (features net)
          = [true; false; false;  true; false; false; false;
             true; false; false; false; false; false;  true; false; false]
       /\ arg_in_channels <$> blocks_of (features net)
          = [64; 256; 256;  256; 512; 512; 512;
             512; 1024; 1024; 1024; 1024; 1024;  1024; 2048; 2048]
       /\ arg_channels <$> blocks_of (features net)
          = [256; 256; 256;  512; 512; 512; 512;
             1024; 1024; 1024; 1024; 1024; 1024;  2048; 2048; 2048].
Proof.
  split.
  - intros. reflexivity.
  - do 2 eexists. vm_compute. repeat split; reflexivity.
Qed.

(** C10, at the failing input.  With [pretrained=True] the depths 18 and
    34 raise the ValueError of the pretrained check, in both versions;
    the depths 50, 101 and 152 raise the TypeError of the bottleneck
    constructors instead, before the check is reached. *)
Theorem get_resnet_enas_pretrained :
  (forall kwargs s,
     Forall (fun '(v, d) =>
               exists s', get_resnet_enas v d true kwargs s
                          = (Raise (ValueError "No pretrained model exists, yet."),
                             s'))
       [(1, 18); (1, 34); (2, 18); (2, 34)])
  /\ (forall kwargs s,
        Forall (fun '(v, d) =>
                  exists msg, get_resnet_enas v d true kwargs s
                              = (Raise (TypeError msg), (7 + s)%nat))
          [(1, 50); (1, 101); (1, 152); (2, 50); (2, 101); (2, 152)]).
Proof.
  split; intros kwargs s.
  - apply get_resnet_enas_basic_pretrained.
  - repeat constructor; eexists; reflexivity.
Qed.

(** ** The stage loops run the plan *)

Lemma plan_cons gc channels i num_layer layers :
  plan gc channels i (num_layer :: layers)
  = stage_plan gc num_layer (default 0 (channels !! S i)) (stage_stride i)
      (default 0 (channels !! i))
    ++ plan gc channels (S i) layers.
Proof. reflexivity. Qed.

Section Assembler.
Context {B : Type} (block : BlockClass B).

Lemma repeatM_mapM (a : BlockArgs) (n : nat) (s : nat) :
  repeatM n (block a) s = mapM block (replicate n a) s.
Proof.
  revert s. induction n as [|n IH]; intros s; simpl; [reflexivity|].
  unfold bind. destruct (block a s) as [[b|e] s1]; [|reflexivity].
  rewrite IH. reflexivity.
Qed.

Lemma _make_layer_mapM (self : ResNet B) num_layers channels stride stage_index
    in_channels s :
  ResNetEnas._make_layer self block num_layers channels stride stage_index
    in_channels s
  = mapM block (stage_plan (grad_cancel self) num_layers channels stride
                  in_channels) s.
Proof.
  unfold ResNetEnas._make_layer, stage_plan, first_args, later_args. simpl.
  unfold bind. destruct (block _ s) as [[b|e] s1]; [|reflexivity].
  rewrite repeatM_mapM. reflexivity.
Qed.

Lemma mapM_app (l1 l2 : list BlockArgs) (s : nat) :
  mapM block (l1 ++ l2) s
  = (let! b1 := mapM block l1 in
     let! b2 := mapM block l2 in
     ret (b1 ++ b2)) s.
Proof.
  revert s. induction l1 as [|a l1 IH]; intros s; simpl.
  - unfold bind, ret. destruct (mapM block l2 s) as [[b2|e] s2]; reflexivity.
  - unfold bind, ret. destruct (block a s) as [[b|e] s1]; [|reflexivity].
    rewrite IH. unfold bind, ret.
    destruct (mapM block l1 s1) as [[b1|e] s2]; [|reflexivity].
    destruct (mapM block l2 s2) as [[b2|e] s3]; reflexivity.
Qed.

Lemma mapM_lookup (l : list BlockArgs) s bs s' (k : nat) a :
  mapM block l s = (Ok bs, s') -> l !! k = Some a ->
  exists b st st', block a st = (Ok b, st') /\ bs !! k = Some b.
Proof.
  revert s bs k. induction l as [|a0 l IH]; intros s bs k Hm Hk; [discriminate|].
  simpl in Hm. apply bind_inv_Ok in Hm as (b0 & s1 & Hb0 & Hm).
  apply bind_inv_Ok in Hm as (bs' & s2 & Hbs & Hm).
  injection Hm as <- <-.
  destruct k as [|k]; simpl in *.
  - injection Hk as <-. eauto.
  - eapply IH; eauto.
Qed.

Lemma mapM_length (l : list BlockArgs) s bs s' :
  mapM block l s = (Ok bs, s') -> length bs = length l.
Proof.
  revert s bs. induction l as [|a0 l IH]; intros s bs Hm; simpl in Hm.
  - injection Hm as <- <-. reflexivity.
  - apply bind_inv_Ok in Hm as (b0 & s1 & Hb0 & Hm).
    apply bind_inv_Ok in Hm as (bs' & s2 & Hbs & Hm).
    injection Hm as <- <-. simpl. f_equal. eauto.
Qed.

End Assembler.

Lemma py_getitem_nat {A} (l : list A) (i : nat) (d : A) (s : nat) :
  (i < length l)%nat ->
  py_getitem l (Z.of_nat i) s = (Ok (default d (l !! i)), s).
Proof.
  intros Hi. unfold py_getitem.
  destruct (Z.ltb_spec (Z.of_nat i) 0); [lia|].
  destruct (Z.leb_spec 0 (Z.of_nat i)); [|lia].
  destruct (Z.ltb_spec (Z.of_nat i) (Z.of_nat (length l))); [|lia].
  simpl. rewrite Nat2Z.id.
  destruct (lookup_lt_is_Some_2 l i Hi) as [a ->]. reflexivity.
Qed.

Lemma py_getitem_last {A} (l : list A) (d : A) (s : nat) :
  l <> [] -> py_getitem l (-1) s = (Ok (default d (last l)), s).
Proof.
  intros Hl. unfold py_getitem.
  assert (0 < length l)%nat by (destruct l; simpl; [congruence | lia]).
  change (-1 <? 0) with true. cbv iota.
  destruct (Z.leb_spec 0 (Z.of_nat (length l) + -1)); [|lia].
  destruct (Z.ltb_spec (Z.of_nat (length l) + -1) (Z.of_nat (length l))); [|lia].
  simpl. replace (Z.to_nat (Z.of_nat (length l) + -1)) with (pred (length l)) by lia.
  rewrite last_lookup.
  destruct (lookup_lt_is_Some_2 l (pred (length l))) as [a ->]; [lia|]. reflexivity.
Qed.

Lemma stage_stride_Z (i : nat) :
  (if Z.of_nat i =? 0 then 1 else 2) = stage_stride i.
Proof. destruct i; reflexivity. Qed.

Lemma extend_nil {B} (self : ResNet B) : ResNetEnas.extend self [] = self.
Proof. destruct self. unfold ResNetEnas.extend. simpl. rewrite app_nil_r. reflexivity. Qed.

Lemma extend_extend {B} (self : ResNet B) (b1 b2 : list B) :
  ResNetEnas.extend (ResNetEnas.extend self b1) b2 = ResNetEnas.extend self (b1 ++ b2).
Proof.
  unfold ResNetEnas.extend. simpl. rewrite fmap_app, app_assoc. reflexivity.
Qed.

Section Stages.
Context {B : Type} (block : BlockClass B) (channels : list Z).

(** The stage loop of [ResNetV1Enas] runs the plan. *)
Lemma stages_V1_plan (layers : list Z) (i : nat) (self : ResNet B) (s : nat) :
  (i + length layers < length channels)%nat ->
  ResNetV1Enas.stages block channels (Z.of_nat i) layers self s
  = (let! bs := mapM block (plan (grad_cancel self) channels i layers) in
     ret (ResNetEnas.extend self bs)) s.
Proof.
  revert i self s. induction layers as [|n layers IH]; intros i self s Hlen.
  - simpl. unfold bind, ret. rewrite extend_nil. reflexivity.
  - simpl in Hlen. simpl ResNetV1Enas.stages. rewrite plan_cons.
    replace (Z.of_nat i + 1) with (Z.of_nat (S i)) by lia.
    rewrite (bind_Ok _ _ _ _ _ (py_getitem_nat channels (S i) 0 s ltac:(lia))).
    rewrite (bind_Ok _ _ _ _ _ (py_getitem_nat channels i 0 s ltac:(lia))).
    rewrite stage_stride_Z. unfold bind.
    rewrite _make_layer_mapM, mapM_app. unfold bind, ret.
    destruct (mapM block (stage_plan _ _ _ _ _) s) as [[b1|e] s1]; [|reflexivity].
    rewrite IH by lia. simpl grad_cancel.
    unfold bind, ret.
    destruct (mapM block (plan _ _ _ _) s1) as [[b2|e] s2]; [|reflexivity].
    rewrite extend_extend. reflexivity.
Qed.

(** So does the stage loop of [ResNetV2Enas], whose running
    [in_channels] is the previous entry of [channels]. *)
Lemma stages_V2_plan (layers : list Z) (i : nat) (self : ResNet B) (s : nat) :
  (i + length layers < length channels)%nat ->
  ResNetV2Enas.stages block channels (Z.of_nat i) layers
    (default 0 (channels !! i)) self s
  = (let! bs := mapM block (plan (grad_cancel self) channels i layers) in
     ret (ResNetEnas.extend self bs)) s.
Proof.
  revert i self s. induction layers as [|n layers IH]; intros i self s Hlen.
  - simpl. unfold bind, ret. rewrite extend_nil. reflexivity.
  - simpl in Hlen. simpl ResNetV2Enas.stages. rewrite plan_cons.
    replace (Z.of_nat i + 1) with (Z.of_nat (S i)) by lia.
    rewrite (bind_Ok _ _ _ _ _ (py_getitem_nat channels (S i) 0 s ltac:(lia))).
    rewrite stage_stride_Z. unfold bind at 1 3.
    rewrite _make_layer_mapM, mapM_app. unfold bind at 2 3, ret.
    destruct (mapM block (stage_plan _ _ _ _ _) s) as [[b1|e] s1]; [|reflexivity].
    rewrite (bind_Ok _ _ _ _ _ (py_getitem_nat channels (S i) 0 s1 ltac:(lia))).
    rewrite IH by lia. simpl grad_cancel.
    unfold bind, ret.
    destruct (mapM block (plan _ _ _ _) s1) as [[b2|e] s2]; [|reflexivity].
    rewrite extend_extend. reflexivity.
Qed.

End Stages.

(** ** Layer sequences of the two networks *)

Lemma ResNetEnas_init {B} (channels : list Z) (classes : Z) (gc : Q) (s : nat) :
  channels <> [] ->
  ResNetEnas.__init__ (B:=B) channels classes gc s
  = (Ok {| features := [];
           output := LDense classes (default 0 (last channels)) s;
           grad_cancel := gc; initial_layers := None |}, S s).
Proof.
  intros Hne. unfold ResNetEnas.__init__.
  rewrite (bind_Ok _ _ _ _ _ (py_getitem_last channels 0 s Hne)).
  reflexivity.
Qed.

(** [ResNetV1Enas.__init__] as the run of the plan of block calls. *)
Lemma ResNetV1Enas_init_plan {B} (block : BlockClass B) (layers channels : list Z)
    (classes : Z) (il : string) (gc : Q) (s : nat) :
  Z.of_nat (length layers) = Z.of_nat (length channels) - 1 ->
  ResNetV1Enas.__init__ block layers channels classes il gc s
  = (let! bs := mapM block (plan gc channels 0 layers) in
     ret {| features :=
              [FLayer (LBatchNorm false (Some 2e-5%Q) (1 + s));
               FLayer (LInitialLayers il (default 0 (channels !! 0%nat)) (2 + s));
               FLayer (LBatchNorm true None (3 + s))]
              ++ (FBlock <$> bs)
              ++ [FLayer (LActivation "relu"); FLayer LGlobalAvgPool2D;
                  FLayer LFlatten];
            output := LDense classes (default 0 (last channels)) s;
            grad_cancel := gc;
            initial_layers :=
              Some (LInitialLayers il (default 0 (channels !! 0%nat)) (2 + s)) |})
      (4 + s)%nat.
Proof.
  intros Hlen.
  assert (Hne : channels <> []) by (intros ->; simpl in Hlen; lia).
  assert (H0 : (0 < length channels)%nat) by lia.
  assert (Hlt : (0 + length layers < length channels)%nat) by lia.
  unfold ResNetV1Enas.__init__.
  rewrite (bind_Ok _ _ _ _ _ (ResNetEnas_init channels classes gc s Hne)).
  rewrite (bind_Ok _ _ _ tt (S s))
    by (rewrite bool_decide_eq_true_2 by exact Hlen; reflexivity).
  rewrite (bind_Ok _ _ _ _ _ (eq_refl : BatchNorm false _ (S s) = (_, _))).
  rewrite (bind_Ok _ _ _ _ _ (py_getitem_nat channels 0 0 _ H0)).
  rewrite (bind_Ok _ _ _ _ _ (eq_refl : add_initial_layers il _ _ = (_, _))).
  rewrite (bind_Ok _ _ _ _ _ (eq_refl : BatchNorm true _ _ = (_, _))).
  unfold bind at 1.
  rewrite (stages_V1_plan block channels layers 0 _ _ Hlt).
  simpl grad_cancel. unfold bind, ret.
  destruct (mapM block _ _) as [[bs|e] s1]; [|reflexivity].
  unfold Activation, ret, ResNetEnas.append, ResNetEnas.extend,
    ResNetEnas.set_initial_layers. simpl.
  rewrite <- !app_assoc. reflexivity.
Qed.

(** [ResNetV2Enas.__init__] as the run of the same plan. *)
Lemma ResNetV2Enas_init_plan {B} (block : BlockClass B) (layers channels : list Z)
    (classes : Z) (il : string) (gc : Q) (s : nat) :
  Z.of_nat (length layers) = Z.of_nat (length channels) - 1 ->
  ResNetV2Enas.__init__ block layers channels classes il gc s
  = (let! bs := mapM block (plan gc channels 0 layers) in
     let! bn_out := BatchNorm true None in
     ret {| features :=
              [FLayer (LBatchNorm false (Some 2e-5%Q) (1 + s));
               FLayer (LInitialLayers il (default 0 (channels !! 0%nat)) (2 + s))]
              ++ (FBlock <$> bs)
              ++ [FLayer bn_out; FLayer (LActivation "relu");
                  FLayer LGlobalAvgPool2D; FLayer LFlatten];
            output := LDense classes (default 0 (last channels)) s;
            grad_cancel := gc;
            initial_layers :=
              Some (LInitialLayers il (default 0 (channels !! 0%nat)) (2 + s)) |})
      (3 + s)%nat.
Proof.
  intros Hlen.
  assert (Hne : channels <> []) by (intros ->; simpl in Hlen; lia).
  assert (H0 : (0 < length channels)%nat) by lia.
  assert (Hlt : (0 + length layers < length channels)%nat) by lia.
  unfold ResNetV2Enas.__init__.
  rewrite (bind_Ok _ _ _ _ _ (ResNetEnas_init channels classes gc s Hne)).
  rewrite (bind_Ok _ _ _ tt (S s))
    by (rewrite bool_decide_eq_true_2 by exact Hlen; reflexivity).
  rewrite (bind_Ok _ _ _ _ _ (eq_refl : BatchNorm false _ (S s) = (_, _))).
  rewrite (bind_Ok _ _ _ _ _ (py_getitem_nat channels 0 0 _ H0)).
  rewrite (bind_Ok _ _ _ _ _ (eq_refl : add_initial_layers il _ _ = (_, _))).
  rewrite (bind_Ok _ _ _ _ _ (py_getitem_nat channels 0 0 _ H0)).
  unfold bind at 1.
  rewrite (stages_V2_plan block channels layers 0 _ _ Hlt).
  simpl grad_cancel. unfold bind, ret.
  destruct (mapM block _ _) as [[bs|e] s1]; [|reflexivity].
  unfold Activation, BatchNorm, bind, fresh, ret, ResNetEnas.append,
    ResNetEnas.extend, ResNetEnas.set_initial_layers. simpl.
  rewrite <- !app_assoc. reflexivity.
Qed.

(** C8.  For a schedule with one more channel count than stages, and for
    any block class: [ResNetV1Enas] builds the input batchnorm (without
    scale), the stem, a batchnorm, the stage blocks, then activation,
    global average pooling and flatten; [ResNetV2Enas] builds the same
    stage blocks from the same calls but has no batchnorm after the stem
    and builds one just before the activation instead; in both the dense
    head, allocated first, comes last in [enas_sequential]. *)
Theorem V1_V2_layer_sequences {B} (block : BlockClass B) (layers channels : list Z)
    (classes : Z) (il : string) (gc : Q) (s : nat) :
  Z.of_nat (length layers) = Z.of_nat (length channels) - 1 ->
  let calls := plan gc channels 0 layers in
  let head := LDense classes (default 0 (last channels)) s in
  let bn_in := LBatchNorm false (Some 2e-5%Q) (1 + s) in
  let stem := LInitialLayers il (default 0 (channels !! 0%nat)) (2 + s) in
  let tail := [FLayer (LActivation "relu"); FLayer LGlobalAvgPool2D;
               FLayer LFlatten] in
  ResNetV1Enas.__init__ block layers channels classes il gc s
  = (let! bs := mapM block calls in
     ret {| features := [FLayer bn_in; FLayer stem;
                         FLayer (LBatchNorm true None (3 + s))]
                        ++ (FBlock <$> bs) ++ tail;
            output := head; grad_cancel := gc;
            initial_layers := Some stem |}) (4 + s)%nat
  /\ ResNetV2Enas.__init__ block layers channels classes il gc s
     = (let! bs := mapM block calls in
        let! bn_out := BatchNorm true None in
        ret {| features := [FLayer bn_in; FLayer stem]
                           ++ (FBlock <$> bs) ++ FLayer bn_out :: tail;
               output := head; grad_cancel := gc;
               initial_layers := Some stem |}) (3 + s)%nat
  /\ forall net : ResNet B,
       ResNetEnas.enas_sequential net = features net ++ [FLayer (output net)].
Proof.
  intros Hlen calls head bn_in stem tail.
  split; [apply ResNetV1Enas_init_plan, Hlen|].
  split; [apply ResNetV2Enas_init_plan, Hlen|].
  reflexivity.
Qed.

Lemma V1_V2_layer_sequences_witness :
  Z.of_nat (length [2; 2; 2; 2]) = Z.of_nat (length [64; 64; 128; 256; 512]) - 1
  /\ exists net1 net2 s1 s2,
       ResNetV1Enas.__init__ recording_block [2; 2; 2; 2] [64; 64; 128; 256; 512]
         1000 "imagenet" 1%Q 0%nat = (Ok net1, s1)
       /\ ResNetV2Enas.__init__ recording_block [2; 2; 2; 2] [64; 64; 128; 256; 512]
            1000 "imagenet" 1%Q 0%nat = (Ok net2, s2)
       /\ blocks_of (features net1) = blocks_of (features net2)
       /\ features net1 !! 2%nat = Some (FLayer (LBatchNorm true None 3))
       /\ features net2 !! 10%nat = Some (FLayer (LBatchNorm true None 3)).
Proof.
  split; [reflexivity|].
  destruct (V1_V2_layer_sequences recording_block [2; 2; 2; 2]
              [64; 64; 128; 256; 512] 1000 "imagenet" 1%Q 0%nat eq_refl)
    as (H1 & H2 & _).
  rewrite H1, H2. do 4 eexists. vm_compute. repeat split; reflexivity.
Defined.

(** ** First block of a stage *)

Lemma stage_start_S (n : Z) (layers : list Z) (i : nat) :
  stage_start (n :: layers) (S i) = (stage_size n + stage_start layers i)%nat.
Proof. reflexivity. Qed.

Lemma stage_plan_length gc n c st cin :
  length (stage_plan gc n c st cin) = stage_size n.
Proof. unfold stage_plan, stage_size. simpl. rewrite length_replicate. reflexivity. Qed.

Lemma plan_lookup_first gc channels (layers : list Z) (i0 i : nat) (n : Z) :
  layers !! i = Some n ->
  plan gc channels i0 layers !! stage_start layers i
  = Some (first_args gc (default 0 (channels !! S (i0 + i)))
            (stage_stride (i0 + i)) (default 0 (channels !! (i0 + i)%nat))).
Proof.
  revert i0 i. induction layers as [|n0 layers IH]; intros i0 i Hi; [discriminate|].
  rewrite plan_cons. destruct i as [|i].
  - rewrite Nat.add_0_r. reflexivity.
  - simpl in Hi. rewrite stage_start_S.
    rewrite lookup_app_r by (rewrite stage_plan_length; lia).
    rewrite stage_plan_length.
    replace (stage_size n0 + stage_start layers i - stage_size n0)%nat
      with (stage_start layers i) by lia.
    rewrite (IH (S i0) i Hi).
    replace (S i0 + i)%nat with (i0 + S i)%nat by lia. reflexivity.
Qed.

Lemma blocks_of_app {B} (f1 f2 : list (Feature B)) :
  blocks_of (f1 ++ f2) = blocks_of f1 ++ blocks_of f2.
Proof. apply omap_app. Qed.

Lemma blocks_of_FBlock {B} (bs : list B) : blocks_of (FBlock <$> bs) = bs.
Proof.
  induction bs as [|b bs IH]; [reflexivity|].
  change (blocks_of (FBlock <$> b :: bs)) with (b :: blocks_of (FBlock <$> bs)).
  rewrite IH. reflexivity.
Qed.

Lemma ResNetEnas_init_empty {B} (classes : Z) (gc : Q) (s : nat) :
  ResNetEnas.__init__ (B:=B) [] classes gc s = (Raise IndexError, s).
Proof. reflexivity. Qed.

(** A network is returned only for a schedule with one more channel
    count than stages. *)
Lemma ResNet_init_accepts {B} (block : BlockClass B) layers channels classes il
    gc s net s' :
  ResNetV1Enas.__init__ block layers channels classes il gc s = (Ok net, s')
  \/ ResNetV2Enas.__init__ block layers channels classes il gc s = (Ok net, s') ->
  Z.of_nat (length layers) = Z.of_nat (length channels) - 1.
Proof.
  intros H.
  destruct (decide (Z.of_nat (length layers) = Z.of_nat (length channels) - 1))
    as [Hlen | Hlen]; [exact Hlen | exfalso].
  destruct (decide (channels = [])) as [-> | Hne].
  - destruct H as [H | H];
      [unfold ResNetV1Enas.__init__ in H | unfold ResNetV2Enas.__init__ in H];
      rewrite (bind_Raise _ _ _ _ _ (ResNetEnas_init_empty classes gc s)) in H;
      discriminate.
  - destruct H as [H | H];
      [unfold ResNetV1Enas.__init__ in H | unfold ResNetV2Enas.__init__ in H];
      rewrite (bind_Ok _ _ _ _ _ (ResNetEnas_init channels classes gc s Hne)) in H;
      erewrite bind_Raise in H
        by (rewrite bool_decide_eq_false_2 by exact Hlen; reflexivity);
      discriminate.
Qed.

(** C6, as amended.  In every network that [ResNetV1Enas] or
    [ResNetV2Enas] returns, for any block class, the first block of stage
    [i] is the result of calling the block class with the stage's output
    channel count, the stride of the stage (1 for the first stage, 2 for
    the others), the stage's input channel count, and a downsample flag
    that is true exactly when the output channel count differs from the
    input channel count; the stride takes no part in the flag. *)
Theorem first_block_downsample {B} (block : BlockClass B) (layers channels : list Z)
    (classes : Z) (il : string) (gc : Q) (s : nat) (net : ResNet B) (s' : nat) :
  ResNetV1Enas.__init__ block layers channels classes il gc s = (Ok net, s')
  \/ ResNetV2Enas.__init__ block layers channels classes il gc s = (Ok net, s') ->
  forall (i : nat) (n : Z),
    layers !! i = Some n ->
    exists c_in c_out b st st',
      channels !! i = Some c_in /\ channels !! S i = Some c_out
      /\ blocks_of (features net) !! stage_start layers i = Some b
      /\ block {| arg_channels := c_out; arg_stride := stage_stride i;
                  arg_downsample := negb (c_out =? c_in);
                  arg_in_channels := c_in; arg_prefix := "";
                  arg_grad_cancel := Some gc |} st = (Ok b, st')
      /\ (negb (c_out =? c_in) = true <-> c_out <> c_in).
Proof.
  intros H i n Hi.
  pose proof (ResNet_init_accepts _ _ _ _ _ _ _ _ _ H) as Hlen.
  pose proof (lookup_lt_Some _ _ _ Hi) as Hilt.
  destruct (lookup_lt_is_Some_2 channels i ltac:(lia)) as [c_in Hcin].
  destruct (lookup_lt_is_Some_2 channels (S i) ltac:(lia)) as [c_out Hcout].
  pose proof (ResNetV1Enas_init_plan block layers channels classes il gc s Hlen)
    as H1.
  pose proof (ResNetV2Enas_init_plan block layers channels classes il gc s Hlen)
    as H2.
  assert (Hbs : exists bs s0 s1,
             mapM block (plan gc channels 0 layers) s0 = (Ok bs, s1)
             /\ blocks_of (features net) = bs).
  { destruct H as [H | H]; [rewrite H1 in H | rewrite H2 in H];
      apply bind_inv_Ok in H as (bs & s1 & Hm & H); exists bs; do 2 eexists;
      (split; [exact Hm|]).
    - injection H as <- <-. simpl.
      rewrite blocks_of_app, blocks_of_FBlock. apply app_nil_r.
    - apply bind_inv_Ok in H as (bn & s2 & Hbn & H).
      injection Hbn as <- <-. injection H as <- <-. simpl.
      rewrite blocks_of_app, blocks_of_FBlock. apply app_nil_r. }
  destruct Hbs as (bs & s0 & s1 & Hm & Hbs).
  pose proof (plan_lookup_first gc channels layers 0 i n Hi) as Hp.
  simpl in Hp. rewrite Hcin, Hcout in Hp. simpl in Hp.
  destruct (mapM_lookup block _ _ _ _ _ _ Hm Hp) as (b & st & st' & Hb & Hk).
  exists c_in, c_out, b, st, st'. rewrite Hbs.
  repeat split; try assumption.
  - intros Hneq Heq. subst. rewrite Z.eqb_refl in Hneq. discriminate.
  - intros Hneq. apply negb_true_iff, Z.eqb_neq. exact Hneq.
Qed.

Lemma first_block_downsample_witness :
  exists net s',
    ResNetV1Enas.__init__ recording_block [1; 1] [64; 64; 128] 1000 "imagenet"
      1%Q 0%nat = (Ok net, s')
    /\ exists c_in c_out b st st',
         [64; 64; 128] !! 1%nat = Some c_in /\ [64; 64; 128] !! 2%nat = Some c_out
         /\ blocks_of (features net) !! stage_start [1; 1] 1 = Some b
         /\ recording_block
              {| arg_channels := c_out; arg_stride := stage_stride 1;
                 arg_downsample := negb (c_out =? c_in);
                 arg_in_channels := c_in; arg_prefix := "";
                 arg_grad_cancel := Some 1%Q |} st = (Ok b, st')
         /\ (negb (c_out =? c_in) = true <-> c_out <> c_in).
Proof.
  do 2 eexists. split; [vm_compute; reflexivity|].
  eapply (first_block_downsample recording_block [1; 1] [64; 64; 128] 1000
            "imagenet" 1%Q 0%nat _ _ (or_introl eq_refl) 1%nat 1).
  reflexivity.
Defined.

(** C6, counterexample.  With the schedule layers = [1, 1] and
    channels = [64, 64, 64], which [ResNetV1Enas] accepts, the first
    block of the second stage is built with stride 2 and without a
    downsample path. *)
Lemma stride_2_without_downsample :
  exists net s' b rest,
    ResNetV1Enas.__init__ BasicBlockV1Enas_unit [1; 1] [64; 64; 64] 1000
      "imagenet" 1%Q 0%nat = (Ok net, s')
    /\ blocks_of (features net) !! stage_start [1; 1] 1
       = Some (UBasicBlockV1 (b :: rest))
    /\ BasicBlockV1Enas.stride b = 2
    /\ BasicBlockV1Enas.channels b = BasicBlockV1Enas.in_channels b
    /\ BasicBlockV1Enas.downsample b = None.
Proof. do 4 eexists. vm_compute. repeat split; reflexivity. Qed.


(** ** Parameter sharing between a block and its partner *)

Lemma conv_layer_shared cfg c bits k st pad inc ub p s :
  pd_shape p = [c; inc; k; k] ->
  conv_layer cfg c bits k st pad inc ub (Some p) s
  = (Ok {| conv_channels := c; conv_bits := bits; conv_kernel_size := k;
           conv_strides := st; conv_padding := pad; conv_in_channels := inc;
           conv_use_bias := ub; conv_config := cfg; conv_params := p |}, s).
Proof.
  intros H. unfold conv_layer, shape_eqb. rewrite bool_decide_eq_true_2 by exact H.
  reflexivity.
Qed.

Lemma conv_layer_mismatch cfg c bits k st pad inc ub p s :
  pd_shape p <> [c; inc; k; k] ->
  conv_layer cfg c bits k st pad inc ub (Some p) s = (Raise ShapeMismatch, s).
Proof.
  intros H. unfold conv_layer, shape_eqb. rewrite bool_decide_eq_false_2 by exact H.
  reflexivity.
Qed.

Lemma conv_layer_shared_inv cfg c bits k st pad inc ub p s q s' :
  conv_layer cfg c bits k st pad inc ub (Some p) s = (Ok q, s') ->
  conv_layer cfg c bits k st pad inc ub (Some p) s
  = (Ok {| conv_channels := c; conv_bits := bits; conv_kernel_size := k;
           conv_strides := st; conv_padding := pad; conv_in_channels := inc;
           conv_use_bias := ub; conv_config := cfg; conv_params := p |}, s).
Proof.
  intros H. destruct (decide (pd_shape p = [c; inc; k; k])) as [Heq | Hne].
  - apply conv_layer_shared, Heq.
  - rewrite (conv_layer_mismatch _ _ _ _ _ _ _ _ _ _ Hne) in H. discriminate.
Qed.

Ltac run_init_in H := cbv -[conv_layer binary_config Z.div] in H.

Ltac open_conv H :=
  match type of H with
  | context [conv_layer ?cfg ?c ?bits ?k ?st ?pad ?inc ?ub (Some ?p) ?s] =>
      let E := fresh "E" in
      destruct (conv_layer cfg c bits k st pad inc ub (Some p) s)
        as [[?q|?e] ?s'] eqn:E;
      [ rewrite (conv_layer_shared_inv _ _ _ _ _ _ _ _ _ _ _ _ E) in E;
        injection E as <- <-
      | discriminate H ];
      cbv -[conv_layer binary_config Z.div] in H
  end.

Ltac fresh_ids :=
  repeat match goal with
         | |- Forall _ [] => constructor
         | |- Forall _ (_ :: _) => constructor; [lia|]
         end.

Ltac disjoint_ids :=
  let i := fresh "i" in
  let Hi := fresh "Hi" in
  intros i Hi;
  repeat (apply elem_of_cons in Hi as [-> | Hi]);
  try (apply elem_of_nil in Hi; contradiction);
  rewrite ?not_elem_of_cons; repeat split; try lia; apply not_elem_of_nil.


Lemma wf_mono v p s s' : wf v p s -> (s <= s')%nat -> wf v p s'.
Proof.
  destruct v; simpl; try tauto.
  - intros (q0 & n1 & q2 & n2 & Hb & H0 & H1 & H2 & H3 & Hd) Hs.
    exists q0, n1, q2, n2. repeat split; try lia; try assumption.
    destruct (BasicBlockV1Enas.downsample p); [|exact I].
    destruct Hd as (qd & nd & -> & ? & ?). exists qd, nd. repeat split; lia.
  - intros (n0 & q0 & n1 & q2 & Hn & Hb & H1 & H2 & ? & ? & ? & ? & Hd) Hs.
    exists n0, q0, n1, q2. repeat split; try lia; try assumption.
    destruct (BasicBlockV2Enas.downsample p); [|exact Hd].
    destruct Hd as (qd & -> & ? & ?). exists qd. repeat split; try assumption; lia.
Qed.

Lemma primary_wf v c st ds inc bits gc s0 p s1 :
  block_new v c st ds inc bits gc None s0 = (Ok p, s1) -> wf v p s1.
Proof.
  intros Hp. destruct v; simpl in *.
  - destruct ds; injection Hp as <- <-; do 4 eexists; cbv -[Nat.lt];
      repeat split; try lia; do 2 eexists; repeat split; lia.
  - eapply not_Ok_of_is_Raise; [apply BottleneckV1Enas_raises | exact Hp].
  - destruct ds; injection Hp as <- <-; do 4 eexists; cbv -[Nat.lt];
      repeat split; try lia; eexists; repeat split; lia.
  - eapply not_Ok_of_is_Raise; [apply BottleneckV2Enas_raises | exact Hp].
Qed.

Ltac wf_goal :=
  repeat match goal with
         | |- exists _, _ => eexists
         | |- _ /\ _ => split
         | |- _ = _ => reflexivity
         | |- (_ < _)%nat => lia
         | |- (_ <= _)%nat => lia
         | |- True => exact I
         end.

Lemma shared_step (v : Variant) (c st : Z) (ds : bool) (inc bits : Z) (gc : Q)
    (p : Block v) (s1 s : nat) (b : Block v) (s2 : nat) :
  wf v p s1 -> (s1 <= s)%nat ->
  block_new v c st ds inc bits gc (Some p) s = (Ok b, s2) ->
  wf v b s2
  /\ conv_tensors (body_layers v b) = conv_tensors (body_layers v p)
  /\ conv_tensors (downsample_layers v b)
     = (if ds then conv_tensors (downsample_layers v p) else [])
  /\ length (conv_tensors (downsample_layers v b)) = (if ds then 1%nat else 0%nat)
  /\ Forall (fun i => (s <= i)%nat)
       (batchnorm_tensors (body_layers v b ++ downsample_layers v b))
  /\ forall i, i ∈ batchnorm_tensors (body_layers v b ++ downsample_layers v b) ->
               i ∉ block_tensors v p.
Proof.
  intros Hwf Hs Hb. destruct v; simpl in *; try contradiction.
  - destruct p as [pp pc pst pin pbits pgc pbody pds].
    destruct Hwf as (q0 & n1 & q2 & n2 & Hbody & ? & ? & ? & ? & Hd).
    simpl in Hbody, Hd. subst pbody.
    destruct q0 as [? ? ? ? ? ? ? ? [? ?]], q2 as [? ? ? ? ? ? ? ? [? ?]].
    destruct pds as [d|];
      [destruct Hd as (qd & nd & -> & ? & ?);
       destruct qd as [? ? ? ? ? ? ? ? [? ?]]|];
      cbn [pd_id conv_params] in *;
      destruct ds; run_init_in Hb; try discriminate Hb;
      repeat open_conv Hb; injection Hb as <- <-;
      (split; [cbv -[Nat.lt]; wf_goal|]);
      cbv -[Nat.le elem_of not]; (repeat split; [fresh_ids | disjoint_ids]).
  - destruct p as [pp pc pst pbits pin pgc pbn pbody pw1 pw2 pds pdw].
    destruct Hwf as (n0 & q0 & n1 & q2 & Hbn & Hbody & Hw1 & Hw2 & ? & ? & ? & ? & Hd).
    simpl in Hbn, Hbody, Hw1, Hw2, Hd. subst pbn pbody pw1 pw2.
    destruct q0 as [? ? ? ? ? ? ? ? [? ?]], q2 as [? ? ? ? ? ? ? ? [? ?]].
    destruct pds as [d|];
      [destruct Hd as (qd & -> & -> & ?);
       destruct qd as [? ? ? ? ? ? ? ? [? ?]]| subst pdw];
      cbn [pd_id conv_params] in *;
      destruct ds; run_init_in Hb; try discriminate Hb;
      repeat open_conv Hb; injection Hb as <- <-;
      (split; [cbv -[Nat.lt]; wf_goal|]);
      cbv -[Nat.le elem_of not]; (repeat split; [fresh_ids | disjoint_ids]).
Qed.

Lemma constructed_wf (v : Variant) (p : Block v) (s : nat) :
  constructed v p s -> wf v p s.
Proof.
  induction 1 as [c st ds inc bits gc s0 p s1 Hp
                 | c st ds inc bits gc p0 s0 s p s1 H0 IH Hs Hp].
  - eapply primary_wf, Hp.
  - eapply shared_step; [exact IH | exact Hs | exact Hp].
Qed.

(** ** The shape check on the partner's tensors *)












(** * Further properties of the assembler *)

Lemma plan_length gc channels (layers : list Z) (i0 : nat) :
  length (plan gc channels i0 layers) = sum_list (stage_size <$> layers).
Proof.
  revert i0. induction layers as [|n layers IH]; intros i0; [reflexivity|].
  rewrite plan_cons, length_app, stage_plan_length, IH. reflexivity.
Qed.

Lemma plan_lookup_later gc channels (layers : list Z) (i0 i j : nat) (n : Z) :
  layers !! i = Some n -> (0 < j < stage_size n)%nat ->
  plan gc channels i0 layers !! (stage_start layers i + j)%nat
  = Some (later_args (default 0 (channels !! S (i0 + i)))).
Proof.
  revert i0 i. induction layers as [|n0 layers IH]; intros i0 i Hi Hj; [discriminate|].
  rewrite plan_cons. destruct i as [|i].
  - injection Hi as ->. rewrite Nat.add_0_r.
    rewrite lookup_app_l by (rewrite stage_plan_length; unfold stage_start; simpl; lia).
    unfold stage_start, stage_plan. simpl.
    destruct j as [|j]; [lia|]. simpl.
    apply lookup_replicate_2. unfold stage_size in Hj. lia.
  - simpl in Hi. rewrite stage_start_S.
    rewrite lookup_app_r by (rewrite stage_plan_length; lia).
    rewrite stage_plan_length.
    replace (stage_size n0 + stage_start layers i + j - stage_size n0)%nat
      with (stage_start layers i + j)%nat by lia.
    rewrite (IH (S i0) i Hi Hj).
    replace (S i0 + i)%nat with (i0 + S i)%nat by lia. reflexivity.
Qed.

Lemma mapM_Raise {B} (block : BlockClass B) (l : list BlockArgs) s e s' :
  mapM block l s = (Raise e, s') ->
  exists (k : nat) a st, l !! k = Some a /\ block a st = (Raise e, s').
Proof.
  revert s. induction l as [|a0 l IH]; intros s Hm; [discriminate|].
  simpl in Hm. unfold bind in Hm.
  destruct (block a0 s) as [[b|e0] s1] eqn:Hb.
  - destruct (mapM block l s1) as [[bs|e1] s2] eqn:Hl.
    + discriminate.
    + injection Hm as <- <-.
      destruct (IH _ Hl) as (k & a & st & Hk & Ha).
      exists (S k), a, st. split; [exact Hk | exact Ha].
  - injection Hm as <- <-. exists 0%nat, a0, s. split; [reflexivity | exact Hb].
Qed.

(** The blocks of a returned network are the results of the plan. *)
Lemma ResNet_init_blocks {B} (block : BlockClass B) layers channels classes il gc
    s net s' :
  ResNetV1Enas.__init__ block layers channels classes il gc s = (Ok net, s')
  \/ ResNetV2Enas.__init__ block layers channels classes il gc s = (Ok net, s') ->
  exists s0 s1,
    mapM block (plan gc channels 0 layers) s0 = (Ok (blocks_of (features net)), s1)
    /\ length (features net) = (6 + length (blocks_of (features net)))%nat
    /\ grad_cancel net = gc.
Proof.
  intros H.
  pose proof (ResNet_init_accepts _ _ _ _ _ _ _ _ _ H) as Hlen.
  pose proof (ResNetV1Enas_init_plan block layers channels classes il gc s Hlen) as H1.
  pose proof (ResNetV2Enas_init_plan block layers channels classes il gc s Hlen) as H2.
  destruct H as [H | H]; [rewrite H1 in H | rewrite H2 in H];
    apply bind_inv_Ok in H as (bs & s1 & Hm & H); do 2 eexists.
  - injection H as <- <-. simpl.
    rewrite blocks_of_app, blocks_of_FBlock, app_nil_r.
    split; [exact Hm|]. rewrite length_app, length_fmap. simpl. split; [lia | reflexivity].
  - apply bind_inv_Ok in H as (bn & s2 & Hbn & H).
    injection Hbn as <- <-. injection H as <- <-. simpl.
    rewrite blocks_of_app, blocks_of_FBlock, app_nil_r.
    split; [exact Hm|]. rewrite length_app, length_fmap. simpl. split; [lia | reflexivity].
Qed.

(** X1.  Whatever the block class, a call of [_make_layer] that returns
    yields max(1, num_layers) blocks: one block is built even when
    [num_layers] is zero or negative. *)
Theorem _make_layer_length {B} (self : ResNet B) (block : BlockClass B)
    (num_layers channels stride stage_index in_channels : Z) (s : nat)
    (bs : list B) (s' : nat) :
  ResNetEnas._make_layer self block num_layers channels stride stage_index
    in_channels s = (Ok bs, s') ->
  Z.of_nat (length bs) = Z.max 1 num_layers.
Proof.
  intros H. rewrite _make_layer_mapM in H.
  rewrite (mapM_length block _ _ _ _ H), stage_plan_length.
  unfold stage_size. lia.
Qed.

Lemma _make_layer_length_witness :
  exists bs s',
    ResNetEnas._make_layer
      {| features := []; output := LFlatten; grad_cancel := 1%Q;
         initial_layers := None |}
      recording_block 0 64 2 1 32 0%nat = (Ok bs, s')
    /\ Z.of_nat (length bs) = Z.max 1 0.
Proof.
  do 2 eexists. split; [reflexivity|].
  apply (_make_layer_length
           {| features := []; output := LFlatten; grad_cancel := 1%Q;
              initial_layers := None |}
           recording_block 0 64 2 1 32 0%nat _ _ eq_refl).
Defined.

(** X2.  In every network that [ResNetV1Enas] or [ResNetV2Enas] returns,
    each block of a stage after the first one is the result of calling
    the block class with the stage's output channel count as both channel
    counts, stride 1, no downsample, and without [grad_cancel]: only the
    first block of a stage is given the network's [grad_cancel]. *)
Theorem later_blocks_of_stage {B} (block : BlockClass B) (layers channels : list Z)
    (classes : Z) (il : string) (gc : Q) (s : nat) (net : ResNet B) (s' : nat) :
  ResNetV1Enas.__init__ block layers channels classes il gc s = (Ok net, s')
  \/ ResNetV2Enas.__init__ block layers channels classes il gc s = (Ok net, s') ->
  forall (i j : nat) (n : Z),
    layers !! i = Some n ->
    (0 < j)%nat -> (Z.of_nat j < n) ->
    exists c_out b st st',
      channels !! S i = Some c_out
      /\ blocks_of (features net) !! (stage_start layers i + j)%nat = Some b
      /\ block {| arg_channels := c_out; arg_stride := 1; arg_downsample := false;
                  arg_in_channels := c_out; arg_prefix := "";
                  arg_grad_cancel := None |} st = (Ok b, st').
Proof.
  intros H i j n Hi Hj0 Hjn.
  pose proof (ResNet_init_accepts _ _ _ _ _ _ _ _ _ H) as Hlen.
  pose proof (lookup_lt_Some _ _ _ Hi) as Hilt.
  destruct (lookup_lt_is_Some_2 channels (S i) ltac:(lia)) as [c_out Hcout].
  destruct (ResNet_init_blocks _ _ _ _ _ _ _ _ _ H) as (s0 & s1 & Hm & _).
  assert (Hj : (0 < j < stage_size n)%nat) by (unfold stage_size; lia).
  pose proof (plan_lookup_later gc channels layers 0 i j n Hi Hj) as Hp.
  simpl in Hp. rewrite Hcout in Hp. simpl in Hp.
  destruct (mapM_lookup block _ _ _ _ _ _ Hm Hp) as (b & st & st' & Hb & Hk).
  exists c_out, b, st, st'. repeat split; assumption.
Qed.

Lemma later_blocks_of_stage_witness :
  exists net s',
    ResNetV2Enas.__init__ recording_block [2; 3] [16; 32; 64] 10 "cifar10" 0.5%Q
      0%nat = (Ok net, s')
    /\ exists c_out b st st',
         [16; 32; 64] !! 2%nat = Some c_out
         /\ blocks_of (features net) !! Nat.add (stage_start [2; 3] 1) 2 = Some b
         /\ recording_block
              {| arg_channels := c_out; arg_stride := 1; arg_downsample := false;
                 arg_in_channels := c_out; arg_prefix := "";
                 arg_grad_cancel := None |} st = (Ok b, st').
Proof.
  do 2 eexists. split; [vm_compute; reflexivity|].
  eapply (later_blocks_of_stage recording_block [2; 3] [16; 32; 64] 10 "cifar10"
            0.5%Q 0%nat _ _ (or_intror eq_refl) 1%nat 2%nat 3);
    [reflexivity | lia | lia].
Defined.

(** X3.  A returned network holds max(1, n) blocks for each stage of [n]
    layers, six framework layers around them in [features], and the
    dense head as the last element of [enas_sequential]; a V1 and a V2
    network of the same schedule have the same number of layers. *)
Theorem network_size {B} (block : BlockClass B) (layers channels : list Z)
    (classes : Z) (il : string) (gc : Q) (s : nat) (net : ResNet B) (s' : nat) :
  ResNetV1Enas.__init__ block layers channels classes il gc s = (Ok net, s')
  \/ ResNetV2Enas.__init__ block layers channels classes il gc s = (Ok net, s') ->
  Z.of_nat (length (blocks_of (features net))) = foldr Z.add 0 (Z.max 1 <$> layers)
  /\ length (features net) = (6 + length (blocks_of (features net)))%nat
  /\ length (ResNetEnas.enas_sequential net)
     = (7 + length (blocks_of (features net)))%nat
  /\ last (ResNetEnas.enas_sequential net) = Some (FLayer (output net)).
Proof.
  intros H.
  destruct (ResNet_init_blocks _ _ _ _ _ _ _ _ _ H) as (s0 & s1 & Hm & Hf & _).
  split; [|split; [exact Hf|split]].
  - rewrite (mapM_length block _ _ _ _ Hm), plan_length.
    clear. induction layers as [|n layers IH]; [reflexivity|].
    change (sum_list (stage_size <$> n :: layers))
      with (stage_size n + sum_list (stage_size <$> layers))%nat.
    change (foldr Z.add 0 (Z.max 1 <$> n :: layers))
      with (Z.max 1 n + foldr Z.add 0 (Z.max 1 <$> layers)).
    rewrite Nat2Z.inj_add, IH. unfold stage_size. f_equal. lia.
  - unfold ResNetEnas.enas_sequential. rewrite length_app, Hf. simpl. lia.
  - unfold ResNetEnas.enas_sequential. apply last_snoc.
Qed.

Lemma network_size_witness :
  exists net s',
    ResNetV1Enas.__init__ recording_block [2; 0; 3] [16; 16; 32; 64] 10 "cifar10"
      1%Q 0%nat = (Ok net, s')
    /\ Z.of_nat (length (blocks_of (features net))) = 6
    /\ length (features net) = 12%nat.
Proof.
  do 2 eexists. split; [vm_compute; reflexivity|].
  destruct (network_size recording_block [2; 0; 3] [16; 16; 32; 64] 10 "cifar10"
              1%Q 0%nat _ _ (or_introl eq_refl)) as (H1 & H2 & _).
  split; [exact H1 | exact H2].
Defined.

(** X4.  A schedule that does not have one more channel count than
    stages is refused by both network classes: with IndexError and
    nothing allocated when [channels] is empty, and otherwise with
    AssertionError after the dense head alone has been allocated; no
    block is constructed in either case. *)
Theorem ResNet_init_rejects {B} (block : BlockClass B) (layers channels : list Z)
    (classes : Z) (il : string) (gc : Q) (s : nat) :
  Z.of_nat (length layers) <> Z.of_nat (length channels) - 1 ->
  let outcome :=
    if decide (channels = []) then (Raise IndexError, s)
    else (Raise (AssertionError "len(layers) == len(channels) - 1"), S s) in
  ResNetV1Enas.__init__ block layers channels classes il gc s = outcome
  /\ ResNetV2Enas.__init__ block layers channels classes il gc s = outcome.
Proof.
  intros Hlen outcome. subst outcome.
  destruct (decide (channels = [])) as [-> | Hne].
  - split; reflexivity.
  - unfold ResNetV1Enas.__init__, ResNetV2Enas.__init__.
    rewrite !(bind_Ok _ _ _ _ _ (ResNetEnas_init channels classes gc s Hne)).
    split; (erewrite bind_Raise;
            [reflexivity
            | rewrite bool_decide_eq_false_2 by exact Hlen; reflexivity]).
Qed.

Lemma ResNet_init_rejects_witness :
  ResNetV1Enas.__init__ recording_block [2; 2] [64; 64] 1000 "imagenet" 1%Q 5%nat
  = (Raise (AssertionError "len(layers) == len(channels) - 1"), 6%nat).
Proof.
  apply (ResNet_init_rejects recording_block [2; 2] [64; 64] 1000 "imagenet" 1%Q
           5%nat).
  simpl. lia.
Defined.

Lemma mapM_total {B} (block : BlockClass B) (l : list BlockArgs) (s : nat) :
  (forall a st, a ∈ l -> exists b st', block a st = (Ok b, st')) ->
  exists bs s', mapM block l s = (Ok bs, s').
Proof.
  revert s. induction l as [|a l IH]; intros s Hl.
  - do 2 eexists. reflexivity.
  - destruct (Hl a s ltac:(left)) as (b & s1 & Hb).
    destruct (IH s1) as (bs & s2 & Hbs).
    { intros a' st Ha'. apply Hl. right. exact Ha'. }
    exists (b :: bs), s2. simpl.
    rewrite (bind_Ok _ _ _ _ _ Hb), (bind_Ok _ _ _ _ _ Hbs). reflexivity.
Qed.

(** X5.  For an accepted schedule, the only exceptions the two network
    classes raise are those of the block class, passed on unchanged
    together with the store the failing call left; and when no call of
    the block class fails, both classes return a network. *)
Theorem block_errors_propagate {B} (block : BlockClass B) (layers channels : list Z)
    (classes : Z) (il : string) (gc : Q) (s : nat) :
  Z.of_nat (length layers) = Z.of_nat (length channels) - 1 ->
  (forall e s',
     ResNetV1Enas.__init__ block layers channels classes il gc s = (Raise e, s')
     \/ ResNetV2Enas.__init__ block layers channels classes il gc s = (Raise e, s') ->
     exists a st, a ∈ plan gc channels 0 layers /\ block a st = (Raise e, s'))
  /\ ((forall a st, a ∈ plan gc channels 0 layers ->
                    exists b st', block a st = (Ok b, st')) ->
      (exists net s',
         ResNetV1Enas.__init__ block layers channels classes il gc s = (Ok net, s'))
      /\ (exists net s',
            ResNetV2Enas.__init__ block layers channels classes il gc s
            = (Ok net, s'))).
Proof.
  intros Hlen.
  pose proof (ResNetV1Enas_init_plan block layers channels classes il gc s Hlen) as H1.
  pose proof (ResNetV2Enas_init_plan block layers channels classes il gc s Hlen) as H2.
  split.
  - intros e s' [H | H]; [rewrite H1 in H | rewrite H2 in H]; unfold bind in H.
    + destruct (mapM block _ _) as [[bs|e1] s1] eqn:Hm; [discriminate|].
      injection H as <- <-.
      destruct (mapM_Raise block _ _ _ _ Hm) as (k & a & st & Hk & Ha).
      exists a, st. split; [eapply list_elem_of_lookup_2, Hk | exact Ha].
    + destruct (mapM block _ _) as [[bs|e1] s1] eqn:Hm; [discriminate|].
      injection H as <- <-.
      destruct (mapM_Raise block _ _ _ _ Hm) as (k & a & st & Hk & Ha).
      exists a, st. split; [eapply list_elem_of_lookup_2, Hk | exact Ha].
  - intros Hok. split.
    + destruct (mapM_total block _ (4 + s)%nat Hok) as (bs & s1 & Hm).
      rewrite H1, (bind_Ok _ _ _ _ _ Hm). do 2 eexists. reflexivity.
    + destruct (mapM_total block _ (3 + s)%nat Hok) as (bs & s1 & Hm).
      rewrite H2, (bind_Ok _ _ _ _ _ Hm). do 2 eexists. reflexivity.
Qed.

Lemma block_errors_propagate_witness :
  exists a st s',
    a ∈ plan 1%Q [64; 256] 0 [3]
    /\ BottleneckV1Enas_unit a st
       = (Raise (TypeError "missing required positional argument"), s').
Proof.
  destruct (block_errors_propagate BottleneckV1Enas_unit [3] [64; 256] 1000
              "imagenet" 1%Q 0%nat eq_refl) as [H _].
  destruct (H (TypeError "missing required positional argument") 7%nat
              (or_introl eq_refl)) as (a & st & Ha & Hb).
  exists a, st, 7%nat. split; [exact Ha | exact Hb].
Defined.

(** ** More on the latency model *)

Lemma latency_closed_form {A} (v : Variant) (b : Block v) (m : A) :
  (num_value (block_latency v b m) == (96 + 9 * block_bits v b) # 128)%Q.
Proof.
  rewrite latency_value.
  destruct (Z.eqb_spec (block_bits v b) 32) as [-> | Hne]; simpl.
  - reflexivity.
  - unfold Qeq. simpl. lia.
Qed.

(** X6.  For every block variant, the value of [latency_function] is
    3 * (0.25 + 0.75 * (bits / 32)) at every bit-width, 32 included: the
    special case for 32 returns the value the general formula has there,
    as an [int] instead of a [float]. *)
Theorem latency_formula_everywhere {A} (v : Variant) (b : Block v) (m : A) :
  (num_value (block_latency v b m)
   == 3 * (0.25 + 0.75 * (inject_Z (block_bits v b) / 32)))%Q
  /\ (block_bits v b = 32 <-> exists z, block_latency v b m = PyInt z).
Proof.
  split.
  - rewrite latency_closed_form. unfold Qeq. simpl. lia.
  - rewrite latency_value.
    destruct (Z.eqb_spec (block_bits v b) 32) as [Hb | Hb].
    + split; [eauto | intros _; exact Hb].
    + split; [contradiction | intros [z Hz]; discriminate].
Qed.

(** Below 2^49 in absolute value, the four floating-point operations of
    [3 * (0.25 + 0.75 * (self.bits / 32))] are exact: each result is a
    multiple of 1/128 with a significand below 2^53. *)
Lemma latency_exact_in_binary64 (bits : Z) :
  Z.abs bits < 2 ^ 49 ->
  binary64_exact (inject_Z bits / 32)
  /\ binary64_exact (0.75 * (inject_Z bits / 32))
  /\ binary64_exact (0.25 + 0.75 * (inject_Z bits / 32))
  /\ binary64_exact (3 * (0.25 + 0.75 * (inject_Z bits / 32))).
Proof.
  intros Hb. change (2 ^ 49) with 562949953421312 in Hb.
  unfold binary64_exact. change (2 ^ 53) with 9007199254740992.
  split; [|split; [|split]].
  - exists bits, 5. split; [lia|]. split; [lia|]. unfold Qeq. simpl. lia.
  - exists (3 * bits), 7. split; [lia|]. split; [lia|]. unfold Qeq. simpl. lia.
  - exists (32 + 3 * bits), 7. split; [lia|]. split; [lia|].
    unfold Qeq. simpl. lia.
  - exists (96 + 9 * bits), 7. split; [lia|]. split; [lia|].
    unfold Qeq. simpl. lia.
Qed.

(** X7.  Among bit-widths of absolute value below 2^49, where every
    intermediate result of [latency_function] is exact in binary64, the
    latency grows strictly with the bit-width, across all block variants:
    a block of fewer bits is the cheaper one. *)
Theorem latency_increasing {A A'} (v v' : Variant) (b : Block v) (b' : Block v')
    (m : A) (m' : A') :
  Z.abs (block_bits v b) < 2 ^ 49 ->
  Z.abs (block_bits v' b') < 2 ^ 49 ->
  block_bits v b < block_bits v' b' ->
  (num_value (block_latency v b m) < num_value (block_latency v' b' m'))%Q.
Proof.
  intros _ _ Hlt. rewrite !latency_closed_form. unfold Qlt. simpl. lia.
Qed.

Lemma latency_increasing_witness :
  exists b' s',
    BasicBlockV1Enas.__init__ 64 1 false 64 false 32 1%Q None 0%nat = (Ok b', s')
    /\ (num_value (block_latency BasicV1 one_bit_block tt)
        < num_value (block_latency BasicV1 b' tt))%Q.
Proof.
  do 2 eexists. split; [reflexivity|].
  apply (latency_increasing BasicV1 BasicV1 one_bit_block _ tt tt);
    simpl; lia.
Defined.

(** ** More on parameter sharing *)

(** X8.  A basic block constructed without partner allocates its own
    dictionary, one weight tensor per conv layer and one parameter
    dictionary per batchnorm layer; constructed with a partner that the
    constructors returned with [init=True] (built without partner, or
    from such a block), it allocates the batchnorm dictionaries only. *)
Theorem block_allocations (v : Variant) (c st : Z) (ds : bool) (inc bits : Z)
    (gc : Q) (partner : option (Block v)) (s : nat) (b : Block v) (s2 : nat) :
  (forall p, partner = Some p -> exists s1, constructed v p s1) ->
  block_new v c st ds inc bits gc partner s = (Ok b, s2) ->
  s2 = (s + match partner with
             | Some _ => 0
             | None => 1 + length (conv_tensors (all_layers v b))
             end
        + length (batchnorm_tensors (all_layers v b)))%nat.
Proof.
  intros Hc Hb. destruct partner as [p|].
  - destruct (Hc p eq_refl) as [s1 Hp]. apply constructed_wf in Hp.
    destruct v; simpl in *; try contradiction.
    + destruct p as [pp pc pst pin pbits pgc pbody pds].
      destruct Hp as (q0 & n1 & q2 & n2 & Hbody & ? & ? & ? & ? & Hd).
      simpl in Hbody, Hd. subst pbody.
      destruct q0 as [? ? ? ? ? ? ? ? [? ?]], q2 as [? ? ? ? ? ? ? ? [? ?]].
      destruct pds as [d|];
        [destruct Hd as (qd & nd & -> & ? & ?);
         destruct qd as [? ? ? ? ? ? ? ? [? ?]]|];
        destruct ds; run_init_in Hb; try discriminate Hb;
        repeat open_conv Hb; injection Hb as <- <-; cbv -[Nat.add]; lia.
    + destruct p as [pp pc pst pbits pin pgc pbn pbody pw1 pw2 pds pdw].
      destruct Hp as (n0 & q0 & n1 & q2 & Hbn & Hbody & Hw1 & Hw2 & ? & ? & ? & ? & Hd).
      simpl in Hbn, Hbody, Hw1, Hw2, Hd. subst pbn pbody pw1 pw2.
      destruct q0 as [? ? ? ? ? ? ? ? [? ?]], q2 as [? ? ? ? ? ? ? ? [? ?]].
      destruct pds as [d|];
        [destruct Hd as (qd & -> & -> & ?);
         destruct qd as [? ? ? ? ? ? ? ? [? ?]]| subst pdw];
        destruct ds; run_init_in Hb; try discriminate Hb;
        repeat open_conv Hb; injection Hb as <- <-; cbv -[Nat.add]; lia.
  - destruct v; simpl in *.
    + destruct ds; injection Hb as <- <-; cbv -[Nat.add]; lia.
    + exfalso. eapply not_Ok_of_is_Raise; [apply BottleneckV1Enas_raises | exact Hb].
    + destruct ds; injection Hb as <- <-; cbv -[Nat.add]; lia.
    + exfalso. eapply not_Ok_of_is_Raise; [apply BottleneckV2Enas_raises | exact Hb].
Qed.

Lemma block_allocations_witness :
  exists p s1 b s2,
    block_new BasicV2 64 2 true 32 1 1%Q None 0%nat = (Ok p, s1)
    /\ block_new BasicV2 64 2 true 32 32 1%Q (Some p) s1 = (Ok b, s2)
    /\ s1 = 6%nat /\ s2 = 8%nat.
Proof.
  assert (Hp : exists p s1, block_new BasicV2 64 2 true 32 1 1%Q None 0%nat = (Ok p, s1))
    by (do 2 eexists; cbv -[binary_config]; reflexivity).
  destruct Hp as (p & s1 & Hp).
  assert (Hb : exists b s2, block_new BasicV2 64 2 true 32 32 1%Q (Some p) s1 = (Ok b, s2))
    by (injection Hp as <- <-; do 2 eexists; cbv -[binary_config]; reflexivity).
  destruct Hb as (b & s2 & Hb).
  exists p, s1, b, s2.
  split; [exact Hp|]. split; [exact Hb|].
  pose proof (block_allocations BasicV2 64 2 true 32 1 1%Q None 0%nat p s1
                ltac:(discriminate) Hp) as E1.
  pose proof (block_allocations BasicV2 64 2 true 32 32 1%Q (Some p) s1 b s2
                (fun q Hq => ex_intro _ s1
                   (eq_ind p (fun r => constructed BasicV2 r s1)
                      (constructed_primary BasicV2 64 2 true 32 1 1%Q 0%nat p s1 Hp)
                      q (f_equal (default p) Hq)))
                Hb) as E2.
  injection Hp as <- <-. injection Hb as <- <-.
  split; [exact E1 | exact E2].
Defined.

(** X9.  A partner that was constructed with [init=False] and without a
    partner of its own has no layers yet.  [BasicBlockV1Enas] refuses it
    with IndexError before it allocates anything.  [BasicBlockV2Enas]
    fails with AttributeError, after allocating its leading batchnorm,
    when it is asked for a downsample path and the partner was built
    without one; otherwise, built with [init=True], it accepts the
    partner and shares nothing: every conv tensor of the new block is
    allocated by its own construction. *)
Theorem uninitialised_partner (c st : Z) (ds : bool) (inc : Z) (init : bool)
    (bits : Z) (gc : Q) (c' st' : Z) (ds' : bool) (inc' bits' : Z) (gc' : Q)
    (s0 s : nat) :
  (forall p s1,
     BasicBlockV1Enas.__init__ c' st' ds' inc' false bits' gc' None s0 = (Ok p, s1) ->
     BasicBlockV1Enas.__init__ c st ds inc init bits gc (Some p) s
     = (Raise IndexError, s))
  /\ (forall p s1,
        BasicBlockV2Enas.__init__ c' st' ds' inc' false bits' gc' None s0
        = (Ok p, s1) ->
        if ds && negb ds' then
          BasicBlockV2Enas.__init__ c st ds inc init bits gc (Some p) s
          = (Raise (AttributeError "downsample_conv_weights"), S s)
        else
          exists b s2,
            BasicBlockV2Enas.__init__ c st ds inc true bits gc (Some p) s
            = (Ok b, s2)
            /\ length (conv_tensors (all_layers BasicV2 b))
               = (if ds then 3%nat else 2%nat)
            /\ Forall (fun t => (s <= pd_id t)%nat)
                 (conv_tensors (all_layers BasicV2 b))).
Proof.
  split; intros p s1 Hp.
  - destruct ds'; injection Hp as <- <-; destruct ds, init; reflexivity.
  - destruct ds'; injection Hp as <- <-; destruct ds; simpl;
      try (destruct init; reflexivity);
      do 2 eexists;
      (split; [cbv -[binary_config]; reflexivity|]);
      (split; [reflexivity|]); cbv -[Nat.le]; fresh_ids.
Qed.

Lemma uninitialised_partner_witness :
  exists p s1,
    BasicBlockV1Enas.__init__ 64 1 false 64 false 1 1%Q None 0%nat = (Ok p, s1)
    /\ BasicBlockV1Enas.__init__ 64 1 false 64 true 32 1%Q (Some p) s1
       = (Raise IndexError, s1).
Proof.
  do 2 eexists. split; [reflexivity|].
  apply (proj1 (uninitialised_partner 64 1 false 64 true 32 1%Q 64 1 false 64 1 1%Q
                  0%nat 1%nat) _ 1%nat).
  reflexivity.
Defined.

(** X10.  A block that asks for a downsample path cannot take a partner
    that the constructors returned with [init=True] (built without
    partner, or from such a block) and that has no downsample path:
    [BasicBlockV1Enas] fails with TypeError when it subscripts the
    partner's missing [downsample], before allocating anything;
    [BasicBlockV2Enas] fails with AttributeError when it reads the
    partner's unassigned [downsample_conv_weights], after allocating its
    leading batchnorm. *)
Theorem partner_without_downsample (v : Variant) (c st inc bits : Z) (gc : Q)
    (p : Block v) (s1 s : nat) :
  constructed v p s1 ->
  downsample_layers v p = [] ->
  (v = BasicV1 ->
     block_new v c st true inc bits gc (Some p) s
     = (Raise (TypeError "'NoneType' object is not subscriptable"), s))
  /\ (v = BasicV2 ->
        block_new v c st true inc bits gc (Some p) s
        = (Raise (AttributeError "downsample_conv_weights"), S s)).
Proof.
  intros Hp Hd. apply constructed_wf in Hp.
  destruct v; simpl in *; try contradiction; (split; intros E; [|]); try discriminate E.
  - destruct p as [pp pc pst pin pbits pgc pbody pds].
    destruct Hp as (q0 & n1 & q2 & n2 & Hbody & ? & ? & ? & ? & Hpd).
    simpl in Hbody, Hpd, Hd. subst pbody.
    destruct pds as [d|]; [destruct Hpd as (qd & nd & -> & _); discriminate Hd|].
    reflexivity.
  - destruct p as [pp pc pst pbits pin pgc pbn pbody pw1 pw2 pds pdw].
    destruct Hp as (n0 & q0 & n1 & q2 & Hbn & Hbody & Hw1 & Hw2 & ? & ? & ? & ? & Hpd).
    simpl in Hbn, Hbody, Hw1, Hw2, Hpd, Hd. subst pbn pbody pw1 pw2.
    destruct pds as [d|]; [destruct Hpd as (qd & -> & _); discriminate Hd|].
    subst pdw. reflexivity.
Qed.

Lemma partner_without_downsample_witness :
  exists p s1,
    block_new BasicV2 64 1 false 64 1 1%Q None 0%nat = (Ok p, s1)
    /\ block_new BasicV2 128 2 true 64 32 1%Q (Some p) s1
       = (Raise (AttributeError "downsample_conv_weights"), S s1).
Proof.
  assert (Hp : exists p s1, block_new BasicV2 64 1 false 64 1 1%Q None 0%nat = (Ok p, s1))
    by (do 2 eexists; cbv -[binary_config]; reflexivity).
  destruct Hp as (p & s1 & Hp). exists p, s1. split; [exact Hp|].
  apply (proj2 (partner_without_downsample BasicV2 128 2 64 32 1%Q p s1 s1
                  (constructed_primary BasicV2 64 1 false 64 1 1%Q 0%nat p s1 Hp)
                  ltac:(injection Hp as <- <-; reflexivity)) eq_refl).
Defined.

(** ** Layer settings of a block *)

Lemma activated_conv_own bits gc c k st pad inc params s l s' :
  activated_conv (binary_config bits gc) c k st pad inc params s = (Ok l, s') ->
  exists q, l = LActivatedConv q /\ own_settings bits gc c q.
Proof.
  unfold activated_conv, conv_layer. intros H.
  destruct params as [p|].
  - destruct (shape_eqb _ _); [|discriminate H].
    injection H as <- <-. eexists. repeat split.
  - injection H as <- <-. eexists. repeat split.
Qed.

Ltac invert_binds H :=
  repeat first
    [ apply bind_inv_Ok in H as (? & ? & ? & H)
    | progress cbv beta iota zeta in H ].

Ltac invert_all_binds :=
  repeat match goal with
         | H : bind _ _ _ = (Ok _, _) |- _ => invert_binds H
         | H : ret _ _ = (Ok _, _) |- _ => unfold ret in H; injection H as <- <-
         end.

Ltac settle_layers :=
  repeat match goal with
         | H : activated_conv (binary_config _ _) _ _ _ _ _ _ _ = (Ok _, _) |- _ =>
             apply activated_conv_own in H as (? & -> & ?)
         | H : BatchNorm _ _ _ = (Ok _, _) |- _ => injection H as <- <-
         end.

(** X11.  Whatever partner a basic block is constructed with, each of
    its conv layers is set to the block's own bit-width, for weights and
    activations, to the block's own channel count, and to the gradient
    cancelling threshold passed to the block if the bit-width is 1 and
    2^31 otherwise: reusing the weights of a partner does not take over
    the partner's settings. *)
Theorem block_settings (v : Variant) (c st : Z) (ds : bool) (inc bits : Z)
    (gc : Q) (partner : option (Block v)) (s : nat) (b : Block v) (s2 : nat) :
  block_new v c st ds inc bits gc partner s = (Ok b, s2) ->
  block_bits v b = bits
  /\ Forall (own_settings bits gc c) (omap conv_of (all_layers v b)).
Proof.
  intros Hb. destruct v; simpl in *.
  - unfold BasicBlockV1Enas.__init__ in Hb. invert_binds Hb.
    repeat match goal with x : (_ * _)%type |- _ => destruct x end.
    invert_binds Hb.
    unfold BasicBlockV1Enas._init in Hb. simpl in Hb. invert_binds Hb.
    destruct ds; simpl in *; invert_all_binds; settle_layers;
      (split; [reflexivity|]); cbv -[own_settings];
      repeat (constructor; [assumption|]); constructor.
  - exfalso. eapply not_Ok_of_is_Raise; [apply BottleneckV1Enas_raises | exact Hb].
  - unfold BasicBlockV2Enas.__init__ in Hb. invert_binds Hb.
    unfold BasicBlockV2Enas._init in Hb.
    destruct ds; destruct partner as [p|]; simpl in *;
      try (destruct (BasicBlockV2Enas.downsample_conv_weights p); simpl in *;
           [|discriminate]);
      invert_all_binds; simpl in *; invert_all_binds; settle_layers;
      (split; [reflexivity|]); cbv -[own_settings];
      repeat (constructor; [assumption|]); constructor.
  - exfalso. eapply not_Ok_of_is_Raise; [apply BottleneckV2Enas_raises | exact Hb].
Qed.

Lemma block_settings_witness :
  exists p s1 b s2,
    block_new BasicV1 64 1 false 64 1 0.5%Q None 0%nat = (Ok p, s1)
    /\ block_new BasicV1 64 1 false 64 32 0.5%Q (Some p) s1 = (Ok b, s2)
    /\ block_bits BasicV1 b = 32
    /\ Forall (own_settings 32 0.5%Q 64) (omap conv_of (all_layers BasicV1 b)).
Proof.
  assert (Hp : exists p s1, block_new BasicV1 64 1 false 64 1 0.5%Q None 0%nat = (Ok p, s1))
    by (do 2 eexists; cbv -[binary_config]; reflexivity).
  destruct Hp as (p & s1 & Hp).
  assert (Hb : exists b s2,
             block_new BasicV1 64 1 false 64 32 0.5%Q (Some p) s1 = (Ok b, s2))
    by (injection Hp as <- <-; do 2 eexists; cbv -[binary_config]; reflexivity).
  destruct Hb as (b & s2 & Hb).
  exists p, s1, b, s2. split; [exact Hp|]. split; [exact Hb|].
  apply (block_settings BasicV1 64 1 false 64 32 0.5%Q (Some p) s1 b s2 Hb).
Defined.

(** ** The specification table *)

Lemma resnet_spec_entries d bt layers channels :
  resnet_spec !! d = Some (bt, layers, channels) ->
  (d, (bt, layers, channels))
  ∈ [ (18, ("basic_block"%string, [2; 2; 2; 2], [64; 64; 128; 256; 512]));
      (34, ("basic_block"%string, [3; 4; 6; 3], [64; 64; 128; 256; 512]));
      (50, ("bottle_neck"%string, [3; 4; 6; 3], [64; 256; 512; 1024; 2048]));
      (101, ("bottle_neck"%string, [3; 4; 23; 3], [64; 256; 512; 1024; 2048]));
      (152, ("bottle_neck"%string, [3; 8; 36; 3], [64; 256; 512; 1024; 2048])) ].
Proof. intros H. apply elem_of_list_to_map_2 in H. exact H. Qed.

Ltac spec_cases H :=
  apply resnet_spec_entries in H;
  repeat (apply elem_of_cons in H as [H | H]; [injection H as -> -> -> ->|]);
  [..|apply elem_of_nil in H; contradiction].

(** X12.  Every entry of [resnet_spec] is a schedule the network classes
    accept (four stages, five channel counts, at least one layer per
    stage), names a block type that both versions provide, and changes
    the channel count at every stride-2 stage: in the networks of the
    table every block built with stride 2 is built with a downsample
    path. *)
Theorem resnet_spec_consistent (d : Z) (bt : string) (layers channels : list Z)
    (gc : Q) :
  resnet_spec !! d = Some (bt, layers, channels) ->
  d ∈ supported_depths
  /\ Z.of_nat (length layers) = Z.of_nat (length channels) - 1
  /\ Forall (fun n => 1 <= n) layers
  /\ Forall (fun versions : gmap string (BlockClass Unit) => is_Some (versions !! bt))
       resnet_block_versions
  /\ Forall (fun a => arg_stride a = 2 -> arg_downsample a = true)
       (plan gc channels 0 layers).
Proof.
  intros H. spec_cases H.
  all: split; [unfold supported_depths; set_solver|].
  all: split; [reflexivity|].
  all: split; [repeat constructor; lia|].
  all: split; [repeat constructor; eexists; reflexivity|].
  all: apply Forall_forall; intros a Ha;
    apply (Forall_forall (fun a => Is_true (implb (arg_stride a =? 2) (arg_downsample a)))) in Ha.
  all: try (destruct (Z.eqb_spec (arg_stride a) 2) as [E|E]; simpl in Ha;
            [intros _; destruct (arg_downsample a); [reflexivity|contradiction]
            | intros E'; contradiction]).
  all: apply Forall_fold_right; vm_compute; repeat split.
Qed.

Lemma resnet_spec_consistent_witness :
  18 ∈ supported_depths
  /\ Forall (fun a => arg_stride a = 2 -> arg_downsample a = true)
       (plan 1%Q [64; 64; 128; 256; 512] 0 [2; 2; 2; 2]).
Proof.
  destruct (resnet_spec_consistent 18 "basic_block" [2; 2; 2; 2]
              [64; 64; 128; 256; 512] 1%Q eq_refl) as (H1 & _ & _ & _ & H2).
  split; [exact H1 | exact H2].
Defined.

Lemma get_resnet_enas_asserts (version num_layers : Z) (pretrained : bool)
    (kwargs : NetKwargs) (s : nat) :
  num_layers ∉ supported_depths \/ ~ (1 <= version <= 2) ->
  is_Raise (get_resnet_enas version num_layers pretrained kwargs s).
Proof.
  intros H. unfold get_resnet_enas.
  destruct (resnet_spec !! num_layers) as [[[bt layers] channels]|] eqn:Hspec.
  - assert (Hv : (1 <=? version) && (version <=? 2) = false).
    { destruct H as [H | H].
      - rewrite (resnet_spec_unsupported _ H) in Hspec. discriminate.
      - apply andb_false_iff.
        destruct (Z.leb_spec 1 version), (Z.leb_spec version 2); auto; lia. }
    erewrite bind_Ok by (rewrite bool_decide_eq_true_2; [reflexivity | eauto]).
    cbv beta.
    erewrite bind_Ok by (unfold py_dict_getitem; rewrite Hspec; reflexivity).
    cbv beta iota.
    apply bind_is_Raise. rewrite Hv. apply is_Raise_Raise.
  - apply bind_is_Raise.
    rewrite bool_decide_eq_false_2 by (intros [x Hx]; discriminate).
    apply is_Raise_Raise.
Qed.

(** X13.  Every call of [get_resnet_enas] raises, unless the depth is 18
    or 34, the version 1 or 2 and [pretrained] is not set: only the four
    basic-block networks without pretrained weights can be returned. *)
Theorem get_resnet_enas_raises_elsewhere (version num_layers : Z)
    (pretrained : bool) (kwargs : NetKwargs) (s : nat) :
  is_Raise (get_resnet_enas version num_layers pretrained kwargs s)
  \/ ((num_layers = 18 \/ num_layers = 34) /\ (version = 1 \/ version = 2)
      /\ pretrained = false).
Proof.
  destruct (decide (num_layers ∈ supported_depths)) as [Hn | Hn].
  2:{ left. apply get_resnet_enas_asserts. left. exact Hn. }
  destruct (decide (1 <= version <= 2)) as [Hv | Hv].
  2:{ left. apply get_resnet_enas_asserts. right. exact Hv. }
  assert (Hv' : version = 1 \/ version = 2) by lia.
  unfold supported_depths in Hn.
  repeat (apply elem_of_cons in Hn as [-> | Hn]);
    [..|apply elem_of_nil in Hn; contradiction];
    destruct Hv' as [-> | ->]; destruct pretrained;
    first [ right; repeat split; auto; fail
          | left; eexists; vm_compute; reflexivity ].
Qed.

(** ** Exceptions of the bottleneck constructors *)

(** X14.  The exception a bottleneck constructor raises is the TypeError
    of its [_conv3x3] call, unless its first conv layer has already
    refused the partner's tensor with ShapeMismatch.  Without partner,
    [BottleneckV1Enas] fails after three allocations (its dictionary, the
    first conv, the first batchnorm) and [BottleneckV2Enas] after four
    (its dictionary, two batchnorms, the first conv), which a failed
    construction leaves behind. *)
Theorem bottleneck_exceptions (c st : Z) (ds : bool) (inc bits : Z) (gc : Q)
    (s : nat) :
  (forall partner,
     exists e s',
       BottleneckV1Enas.__init__ c st ds inc bits gc partner s = (Raise e, s')
       /\ (e = TypeError "missing required positional argument"
           \/ e = ShapeMismatch))
  /\ BottleneckV1Enas.__init__ c st ds inc bits gc None s
     = (Raise (TypeError "missing required positional argument"), (3 + s)%nat)
  /\ (forall partner,
        exists e s',
          BottleneckV2Enas.__init__ c st ds inc bits gc partner s = (Raise e, s')
          /\ (e = TypeError "got multiple values for argument"
              \/ e = ShapeMismatch))
  /\ BottleneckV2Enas.__init__ c st ds inc bits gc None s
     = (Raise (TypeError "got multiple values for argument"), (4 + s)%nat).
Proof.
  split; [|split; [reflexivity|split; [|reflexivity]]]; intros partner.
  - unfold BottleneckV1Enas.__init__.
    destruct partner as [p|]; simpl.
    + rewrite (bind_Ok _ _ _ _ _ (eq_refl : ret _ s = (Ok _, s))).
      destruct (QConv2D_cases (binary_config bits gc) (c / 4) None 1 st 0 0 None
                  (BottleneckV1Enas.conv1_weights p) s) as [(q & s2 & Hq) | Hq].
      * rewrite (bind_Ok _ _ _ _ _ Hq).
        do 2 eexists. split; [reflexivity | left; reflexivity].
      * rewrite (bind_Raise _ _ _ _ _ Hq).
        do 2 eexists. split; [reflexivity | right; reflexivity].
    + do 2 eexists. split; [reflexivity | left; reflexivity].
  - unfold BottleneckV2Enas.__init__.
    destruct partner as [p|]; simpl.
    + rewrite (bind_Ok _ _ _ _ _ (eq_refl : ret _ s = (Ok _, s))).
      rewrite (bind_Ok _ _ _ _ _ (eq_refl : BatchNorm true None s = (_, _))).
      destruct (QConv2D_cases (binary_config bits gc) (c / 4) None 1 1 0 0
                  (Some false) (BottleneckV2Enas.conv1_weights p) (S s))
        as [(q & s2 & Hq) | Hq].
      * rewrite (bind_Ok _ _ _ _ _ Hq).
        do 2 eexists. split; [reflexivity | left; reflexivity].
      * rewrite (bind_Raise _ _ _ _ _ Hq).
        do 2 eexists. split; [reflexivity | right; reflexivity].
    + do 2 eexists. split; [reflexivity | left; reflexivity].
Qed.

(** * Weight statistics: properties of [prepare_net] *)

Import Evaluation.

Lemma names_where_cons {T} (keep : string -> bool) (name : string) (data : T) ps :
  names_where keep ((name, data) :: ps)
  = if keep name then name :: names_where keep ps else names_where keep ps.
Proof.
  unfold names_where. simpl. destruct (keep name) eqn:Hk.
  - apply filter_cons_True. rewrite Hk. exact I.
  - apply filter_cons_False. rewrite Hk. simpl. tauto.
Qed.

Lemma visit_all {T} (shape : T -> list Z) (det_sign : T -> T)
    (all_params visited : list (string * T)) (l : Locals) :
  fold_left (visit shape det_sign) all_params (visited, l)
  = (visited ++ (binarized det_sign <$> all_params),
     {| fp_weights :=
          fp_weights l + weights_where shape (fun n => negb (is_qconv n)) all_params;
        binary_weights := binary_weights l + weights_where shape is_qconv all_params;
        binary_params := binary_params l ++ names_where is_qconv all_params;
        full_precision_params :=
          full_precision_params l
          ++ names_where (fun n => negb (is_qconv n)) all_params |}).
Proof.
  revert visited l. induction all_params as [|[name data] ps IH]; intros visited l.
  - unfold names_where, weights_where. simpl.
    rewrite !app_nil_r, !Z.add_0_r. destruct l. reflexivity.
  - simpl fold_left. rewrite !names_where_cons.
    change (weights_where shape is_qconv ((name, data) :: ps))
      with (if is_qconv name
            then num_params shape data + weights_where shape is_qconv ps
            else weights_where shape is_qconv ps).
    change (weights_where shape (fun n => negb (is_qconv n)) ((name, data) :: ps))
      with (if negb (is_qconv name)
            then num_params shape data
                 + weights_where shape (fun n => negb (is_qconv n)) ps
            else weights_where shape (fun n => negb (is_qconv n)) ps).
    change (binarized det_sign <$> (name, data) :: ps)
      with ((name, if is_qconv name then det_sign data else data)
            :: (binarized det_sign <$> ps)).
    change (contains "qconv" name) with (is_qconv name).
    destruct (is_qconv name); rewrite IH; simpl;
      rewrite <- !app_assoc, <- !Z.add_assoc; reflexivity.
Qed.

(** The loop of [prepare_net], in closed form. *)
Lemma prepare_net_locals {T} (shape : T -> list Z) (det_sign : T -> T)
    (all_params : list (string * T)) :
  fold_left (visit shape det_sign) all_params
    ([], {| fp_weights := 0; binary_weights := 0; binary_params := [];
            full_precision_params := [] |})
  = (binarized det_sign <$> all_params,
     {| fp_weights := weights_where shape (fun n => negb (is_qconv n)) all_params;
        binary_weights := weights_where shape is_qconv all_params;
        binary_params := names_where is_qconv all_params;
        full_precision_params :=
          names_where (fun n => negb (is_qconv n)) all_params |}).
Proof. rewrite visit_all. reflexivity. Qed.

Lemma prepare_net_params {T} (shape : T -> list Z) (det_sign : T -> T)
    (convert_size : Q -> Error + string) (verbose : bool)
    (all_params : list (string * T)) :
  (prepare_net shape det_sign convert_size verbose all_params).1.1
  = binarized det_sign <$> all_params.
Proof.
  unfold prepare_net. rewrite prepare_net_locals. cbv beta iota zeta.
  destruct verbose; [|reflexivity].
  destruct (py_div _ _); [reflexivity|].
  destruct (convert_size _); [reflexivity|].
  destruct (py_div _ _); reflexivity.
Qed.

(** X16.  [prepare_net] keeps the names and the order of the parameters;
    it replaces the data of exactly the parameters whose name contains
    "qconv" by its deterministic sign, whether or not it is verbose and
    whether or not it raises; without [verbose] it prints nothing and
    raises nothing. *)
Theorem prepare_net_binarizes {T} (shape : T -> list Z) (det_sign : T -> T)
    (convert_size : Q -> Error + string) (verbose : bool) (all_params : list (string * T)) :
  (prepare_net shape det_sign convert_size verbose all_params).1.1
  = (fun entry : string * T =>
       (entry.1, if contains "qconv" entry.1 then det_sign entry.2 else entry.2))
    <$> all_params
  /\ prepare_net shape det_sign convert_size false all_params
     = (binarized det_sign <$> all_params, [], None).
Proof.
  split; [apply prepare_net_params|].
  unfold prepare_net. rewrite prepare_net_locals. reflexivity.
Qed.

Lemma num_params_nonneg {T} (shape : T -> list Z) (data : T) :
  Forall (fun d => 0 <= d) (shape data) -> 0 <= num_params shape data.
Proof.
  unfold num_params. generalize (shape data) as dims.
  assert (H : forall dims acc, 0 <= acc -> Forall (fun d => 0 <= d) dims ->
                               0 <= fold_left Z.mul dims acc).
  { induction dims as [|d dims IH]; intros acc Hacc Hd; simpl; [exact Hacc|].
    inversion Hd; subst. apply IH; [nia | assumption]. }
  intros dims Hd. apply H; [lia | exact Hd].
Qed.

Lemma weights_where_nonneg {T} (shape : T -> list Z) (keep : string -> bool)
    (all_params : list (string * T)) :
  Forall (fun entry => Forall (fun d => 0 <= d) (shape entry.2)) all_params ->
  0 <= weights_where shape keep all_params.
Proof.
  induction 1 as [|[name data] ps Hd Hps IH]; simpl; [lia|].
  destruct (keep name); [|exact IH].
  pose proof (num_params_nonneg shape data Hd). lia.
Qed.

(** X17.  When the shapes have no negative dimension and the network
    has at least one weight, a verbose [prepare_net] prints the number
    of weights of the parameters without "qconv" in their name and the
    number of weights of the others with their share in percent.  If
    [convert_size] raises on the size of binary + 32 * full-precision
    bits in bytes, that exception ends the call after these two lines;
    otherwise three more lines follow, with that size, the share of the
    binary bits and the names of the two groups in the order of the
    dictionary, and nothing is raised. *)
Theorem prepare_net_report {T} (shape : T -> list Z) (det_sign : T -> T)
    (convert_size : Q -> Error + string) (all_params : list (string * T)) :
  Forall (fun entry => Forall (fun d => 0 <= d) (shape entry.2)) all_params ->
  let fp := weights_where shape (fun n => negb (is_qconv n)) all_params in
  let binary := weights_where shape is_qconv all_params in
  0 < fp + binary ->
  prepare_net shape det_sign convert_size true all_params
  = let line1 := FullPrecisionWeights fp in
    let line2 :=
      BinaryWeights binary (inject_Z (100 * binary) / inject_Z (fp + binary))%Q in
    match convert_size (inject_Z (binary + fp * 32) / 8)%Q with
    | inl e => (binarized det_sign <$> all_params, [line1; line2], Some e)
    | inr size =>
        (binarized det_sign <$> all_params,
         [line1; line2;
          CompressedSize size
            (inject_Z (100 * binary) / inject_Z (binary + fp * 32))%Q;
          BinaryParams (names_where is_qconv all_params);
          FullPrecisionParams
            (names_where (fun n => negb (is_qconv n)) all_params)],
         None)
    end.
Proof.
  intros Hdims fp binary Hpos.
  pose proof (weights_where_nonneg shape (fun n => negb (is_qconv n)) _ Hdims) as Hfp.
  pose proof (weights_where_nonneg shape is_qconv _ Hdims) as Hbin.
  fold fp in Hfp. fold binary in Hbin.
  unfold prepare_net. rewrite prepare_net_locals. cbv beta iota zeta.
  cbn [fp_weights binary_weights binary_params full_precision_params].
  fold fp binary. unfold py_div.
  destruct (Z.eqb_spec (fp + binary) 0) as [E | _]; [lia|].
  destruct (Z.eqb_spec (binary + fp * 32) 0) as [E | _]; [lia|].
  destruct (convert_size _); reflexivity.
Qed.

Lemma prepare_net_report_witness :
  prepare_net (fun t : list Z => t) (fun t => t)
    (fun size => if Qle_bool 0 size then inr "size"%string else inl ValueError)
    true [("conv0_weight"%string, [2; 3]); ("qconv0_weight"%string, [4; 2])]
  = ([("conv0_weight"%string, [2; 3]); ("qconv0_weight"%string, [4; 2])],
     [FullPrecisionWeights 6;
      BinaryWeights 8 (inject_Z 800 / inject_Z 14)%Q;
      CompressedSize "size" (inject_Z 800 / inject_Z 200)%Q;
      BinaryParams ["qconv0_weight"%string];
      FullPrecisionParams ["conv0_weight"%string]],
     None).
Proof.
  apply (prepare_net_report (fun t : list Z => t) (fun t => t)
           (fun size => if Qle_bool 0 size then inr "size"%string
                        else inl ValueError)
           [("conv0_weight"%string, [2; 3]); ("qconv0_weight"%string, [4; 2])]).
  - repeat constructor; lia.
  - vm_compute. reflexivity.
Defined.

(** X18.  On a network without any weight, such as one without
    parameters, a verbose [prepare_net] prints its first line and then
    raises ZeroDivisionError when it computes the share of binary
    weights; the parameters with "qconv" in their name have been
    binarized by then. *)
Theorem prepare_net_no_weights {T} (shape : T -> list Z) (det_sign : T -> T)
    (convert_size : Q -> Error + string) (all_params : list (string * T)) :
  Forall (fun entry => Forall (fun d => 0 <= d) (shape entry.2)) all_params ->
  weights_where shape (fun _ => true) all_params = 0 ->
  prepare_net shape det_sign convert_size true all_params
  = (binarized det_sign <$> all_params, [FullPrecisionWeights 0],
     Some ZeroDivisionError).
Proof.
  intros Hdims Hzero.
  pose proof (weights_where_nonneg shape (fun n => negb (is_qconv n)) _ Hdims) as Hfp.
  pose proof (weights_where_nonneg shape is_qconv _ Hdims) as Hbin.
  assert (Hsum : weights_where shape (fun n => negb (is_qconv n)) all_params
                 + weights_where shape is_qconv all_params
                 = weights_where shape (fun _ => true) all_params).
  { clear. induction all_params as [|[name data] ps IH]; [reflexivity|].
    simpl. destruct (is_qconv name); simpl; lia. }
  unfold prepare_net. rewrite prepare_net_locals. cbv beta iota zeta.
  cbn [fp_weights binary_weights binary_params full_precision_params].
  unfold py_div.
  destruct (Z.eqb_spec (weights_where shape (fun n => negb (is_qconv n)) all_params
                        + weights_where shape is_qconv all_params) 0) as [_ | E];
    [|lia].
  replace (weights_where shape (fun n => negb (is_qconv n)) all_params) with 0 by lia.
  reflexivity.
Qed.

Lemma prepare_net_no_weights_witness :
  prepare_net (fun t : list Z => t) (fun t => t) (fun _ => inr "size"%string) true
    [("qconv0_weight"%string, [0; 3; 3; 3])]
  = ([("qconv0_weight"%string, [0; 3; 3; 3])], [FullPrecisionWeights 0],
     Some ZeroDivisionError).
Proof.
  apply (prepare_net_no_weights (fun t : list Z => t) (fun t => t)
           (fun _ => inr "size"%string) [("qconv0_weight"%string, [0; 3; 3; 3])]).
  - repeat constructor; lia.
  - reflexivity.
Defined.

(** X19.  When the deterministic sign of a sign tensor is that tensor,
    preparing a network twice leaves the parameters as preparing it once
    does. *)
Theorem prepare_net_idempotent {T} (shape : T -> list Z) (det_sign : T -> T)
    (convert_size : Q -> Error + string) (verbose verbose' : bool)
    (all_params : list (string * T)) :
  (forall t, det_sign (det_sign t) = det_sign t) ->
  (prepare_net shape det_sign convert_size verbose'
     (prepare_net shape det_sign convert_size verbose all_params).1.1).1.1
  = (prepare_net shape det_sign convert_size verbose all_params).1.1.
Proof.
  intros Hidem.
  rewrite !prepare_net_params, <- list_fmap_compose. apply list_fmap_ext.
  intros i [name data] _. unfold binarized, compose. simpl.
  destruct (contains "qconv" name); [rewrite Hidem|]; reflexivity.
Qed.

Lemma prepare_net_idempotent_witness :
  (prepare_net (fun t : list Z => [Z.of_nat (length t)])
     (map (fun x => if x <? 0 then -1 else 1)) (fun _ => inr ""%string) false
     (prepare_net (fun t : list Z => [Z.of_nat (length t)])
        (map (fun x => if x <? 0 then -1 else 1)) (fun _ => inr ""%string) true
        [("qconv0_weight"%string, [-3; 0; 7])]).1.1).1.1
  = [("qconv0_weight"%string, [-1; 1; 1])].
Proof.
  rewrite (prepare_net_idempotent (fun t : list Z => [Z.of_nat (length t)])
             (map (fun x => if x <? 0 then -1 else 1)) (fun _ => inr ""%string)
             true false [("qconv0_weight"%string, [-3; 0; 7])]).
  - reflexivity.
  - intros t. induction t as [|x t IH]; [reflexivity|].
    simpl. rewrite IH. destruct (x <? 0); reflexivity.
Defined.
